(** * A shallow embedding of [run.py], the crypto-signal batch job

    The job reads a YAML configuration and a CSV table, computes a rolling
    mean of the [close] column, derives a 0/1 signal, and writes a JSON
    report.  This file embeds [load_config], [load_data] and [main] and the
    library operations they call, and proves properties of them.

    Modelling conventions.
    - A float is an IEEE 754 binary64 number, with its rounding, its
      infinities and its NaN: the primitive [float] of the standard library.
      The columns of a table and the rolling mean are made of them.
    - The rate of the signal column is a quotient of two row counts.  It is
      kept as an exact rational ([ratio]) until the report is built, where
      the double the program holds for it, the nearest one, is taken
      ([py_float]) and rounded to four decimals ([round4]).  A double is
      written there as the rational it stands for, and so is the value of
      the report, which the JSON text shows with its four decimals.
    - Exceptions are values of [exn]; fallible code returns [result].
    - [main] threads a state made of the effects performed so far and of the
      local variable [config], which the [except] handler inspects.
    - The file system maps a path to the text of a readable regular file.
      The four paths of the command line are taken to be distinct, so what
      the job appends to its log or writes to its output is never read back.
    - The parsers [yaml.safe_load] and [pandas.read_csv] and the seed check
      of [numpy.random.seed] are parameters of the job ([libraries]). *)

From Stdlib Require Import ZArith QArith Qround Qabs List String Bool Lia Lqa.
From Stdlib Require Import Arith PeanoNat.
From Stdlib Require Import PrimFloat.
From Stdlib Require SpecFloat FloatOps FloatAxioms.
Import ListNotations.
Set Warnings "-register-all,-inexact-float".
Open Scope string_scope.
Open Scope list_scope.
Open Scope Z_scope.

(** ** Python values, exceptions, results *)

(** The missing value of a float column. *)
Definition NaN : float := nan.

(** An exact number, or none: the rate of the signal and the value of the
    report. *)
Definition ratio : Set := option Q.

(** The values [yaml.safe_load] can build.  A mapping keeps its pairs in
    document order; only string keys are kept, since the job only ever looks
    up the strings ["seed"], ["window"] and ["version"].  [PyDate] stands for
    the [datetime] objects YAML timestamps are loaded as. *)
Inductive pyval : Type :=
| PyNone
| PyBool (b : bool)
| PyInt (z : Z)
| PyFloat (x : float)
| PyStr (s : string)
| PyList (items : list pyval)
| PyDict (pairs : list (string * pyval))
| PyDate (iso : string).

Inductive exn : Type :=
| FileNotFoundError (msg : string)
| OSError (msg : string)
| ValueError (msg : string)
| TypeError (msg : string)
| KeyError (key : string)
| YAMLError (msg : string)
| DataError (msg : string)
| OverflowError (msg : string)
| SystemExit (code : Z).

(** [except Exception] catches everything but [SystemExit]. *)
Definition is_Exception (e : exn) : bool :=
  match e with
  | SystemExit _ => false
  | _ => true
  end.

(** [str(e)] *)
Definition str_exn (e : exn) : string :=
  match e with
  | FileNotFoundError m | OSError m | ValueError m | TypeError m
  | YAMLError m | DataError m | OverflowError m => m
  | KeyError k => ("'" ++ k ++ "'")%string
  | SystemExit c => if c =? 0 then "0" else "1"
  end.

Inductive result (A : Type) : Type :=
| Return (a : A)
| Raise (e : exn).
Arguments Return {A} a.
Arguments Raise {A} e.

Definition rbind {A B} (r : result A) (k : A -> result B) : result B :=
  match r with
  | Return a => k a
  | Raise e => Raise e
  end.

Declare Scope result_scope.
Delimit Scope result_scope with result.
Notation "x <- r ;; k" := (rbind r (fun x => k))
  (at level 61, r at next level, right associativity) : result_scope.

(** ** Python operators on loaded values *)

Fixpoint is_prefix (p s : string) : bool :=
  match p, s with
  | EmptyString, _ => true
  | String a p', String b s' => Ascii.eqb a b && is_prefix p' s'
  | String _ _, EmptyString => false
  end.

(** [sub in s] on two strings *)
Fixpoint is_substring (sub s : string) : bool :=
  is_prefix sub s ||
  match s with
  | EmptyString => false
  | String _ s' => is_substring sub s'
  end.

(** [key == v] for a string [key] *)
Definition eq_str (key : string) (v : pyval) : bool :=
  match v with
  | PyStr s => String.eqb key s
  | _ => false
  end.

(** [type(v).__name__] *)
Definition type_name (v : pyval) : string :=
  match v with
  | PyNone => "NoneType"
  | PyBool _ => "bool"
  | PyInt _ => "int"
  | PyFloat _ => "float"
  | PyStr _ => "str"
  | PyList _ => "list"
  | PyDict _ => "dict"
  | PyDate _ => "datetime.date"
  end.

(** [key in container]: membership in a mapping or a list, substring of a
    string, and a [TypeError] on a value that is not a container. *)
Definition py_in (key : string) (container : pyval) : result bool :=
  match container with
  | PyDict pairs => Return (existsb (fun kv => String.eqb key (fst kv)) pairs)
  | PyList items => Return (existsb (eq_str key) items)
  | PyStr s => Return (is_substring key s)
  | PyNone | PyBool _ | PyInt _ | PyFloat _ | PyDate _ =>
      Raise (TypeError ("argument of type '" ++ type_name container
                        ++ "' is not iterable")%string)
  end.

Fixpoint dict_get (key : string) (pairs : list (string * pyval)) : option pyval :=
  match pairs with
  | [] => None
  | (k, v) :: rest => if String.eqb key k then Some v else dict_get key rest
  end.

(** [container[key]] for a string [key] *)
Definition py_getitem (container : pyval) (key : string) : result pyval :=
  match container with
  | PyDict pairs =>
      match dict_get key pairs with
      | Some v => Return v
      | None => Raise (KeyError key)
      end
  | PyList _ => Raise (TypeError "list indices must be integers or slices, not str")
  | PyStr _ => Raise (TypeError "string indices must be integers, not 'str'")
  | PyNone | PyBool _ | PyInt _ | PyFloat _ | PyDate _ =>
      Raise (TypeError ("'" ++ type_name container
                        ++ "' object is not subscriptable")%string)
  end.

(** What [json.dump] can serialise: everything but the date objects. *)
Fixpoint json_serializable (v : pyval) : bool :=
  match v with
  | PyList items => forallb json_serializable items
  | PyDict pairs => forallb (fun kv => json_serializable (snd kv)) pairs
  | PyDate _ => false
  | _ => true
  end.

(** ** The configuration loader *)

Inductive parsed (A : Type) : Type :=
| Parsed (a : A)
| ParseError (msg : string).
Arguments Parsed {A} a.
Arguments ParseError {A} msg.

Definition filesystem := string -> option string.

Definition required_keys : list string := ["seed"; "window"; "version"].

(** The loop [for key in required_keys: if key not in config: raise ...] *)
Fixpoint check_keys (keys : list string) (config : pyval) : result unit :=
  match keys with
  | [] => Return tt
  | key :: rest =>
      (present <- py_in key config ;;
       if negb present
       then Raise (ValueError "Invalid configuration file structure")
       else check_keys rest config)%result
  end.

(** ** Tables

    A [DataFrame] has a row count and named columns.  A column read from CSV
    is either numeric (held as floats) or of object dtype (text). *)

Inductive series : Type :=
| Float64 (values : list float)
| Int64 (values : list Z)
| Bool (values : list bool)
| Object (values : list string).

Record DataFrame : Type := mkDataFrame {
  index_len : nat;
  columns : list (string * series)
}.

Definition series_len (s : series) : nat :=
  match s with
  | Float64 v => List.length v
  | Int64 v => List.length v
  | Bool v => List.length v
  | Object v => List.length v
  end.

(** The invariant pandas keeps: every column is as long as the index. *)
Definition well_formed (df : DataFrame) : Prop :=
  forall name col, In (name, col) (columns df) -> series_len col = index_len df.

(** [df.empty]: some axis has length zero *)
Definition df_empty (df : DataFrame) : bool :=
  (index_len df =? 0)%nat || (List.length (columns df) =? 0)%nat.

(** [name in df.columns] *)
Definition has_column (name : string) (df : DataFrame) : bool :=
  existsb (fun c => String.eqb name (fst c)) (columns df).

Fixpoint find_column (name : string) (cols : list (string * series)) : option series :=
  match cols with
  | [] => None
  | (n, col) :: rest => if String.eqb name n then Some col else find_column name rest
  end.

(** [df[name]] *)
Definition df_getitem (df : DataFrame) (name : string) : result series :=
  match find_column name (columns df) with
  | Some col => Return col
  | None => Raise (KeyError name)
  end.

Fixpoint set_column (name : string) (col : series) (cols : list (string * series))
  : list (string * series) :=
  match cols with
  | [] => [(name, col)]
  | (n, c) :: rest =>
      if String.eqb name n then (n, col) :: rest
      else (n, c) :: set_column name col rest
  end.

(** [df[name] = col]: replaces the column of that name or appends a new one *)
Definition df_setitem (df : DataFrame) (name : string) (col : series) : DataFrame :=
  mkDataFrame (index_len df) (set_column name col (columns df)).

(** ** Floating-point arithmetic

    The aggregation of a rolling window is written once, over the operations
    it uses.  The program runs it with the arithmetic of the processor
    ([binary64]); the same steps can be read on exact numbers ([exact]). *)

Record arithmetic (F : Type) : Type := mkArithmetic {
  a_zero : F;
  a_nan : F;
  a_add : F -> F -> F;
  a_sub : F -> F -> F;
  a_opp : F -> F;
  a_div : F -> F -> F;
  a_of_count : Z -> F;      (* the cast [<float64_t>nobs] *)
  a_eqb : F -> F -> bool;   (* [x == y] *)
  a_ltb : F -> F -> bool;   (* [x < y] *)
  a_signbit : F -> bool;
  a_isinf : F -> bool
}.
Arguments mkArithmetic {F} _ _ _ _ _ _ _ _ _ _ _.
Arguments a_zero {F} _.
Arguments a_nan {F} _.
Arguments a_add {F} _ _ _.
Arguments a_sub {F} _ _ _.
Arguments a_opp {F} _ _.
Arguments a_div {F} _ _ _.
Arguments a_of_count {F} _ _.
Arguments a_eqb {F} _ _ _.
Arguments a_ltb {F} _ _ _.
Arguments a_signbit {F} _ _.
Arguments a_isinf {F} _ _.

(** The double next to an integer, ties to even: the cast of an integer to
    float64. *)
Definition float_of_Z (z : Z) : float :=
  FloatOps.SF2Prim (SpecFloat.binary_normalize FloatOps.prec FloatOps.emax z 0 false).

Definition binary64 : arithmetic float :=
  mkArithmetic zero nan add sub opp div float_of_Z eqb ltb get_sign is_infinity.

(** The operations on exact numbers: a rational, or no number.  There is
    no rounding and no infinity here. *)
Definition exact_op (f : Q -> Q -> Q) (a b : ratio) : ratio :=
  match a, b with
  | Some x, Some y => Some (f x y)
  | _, _ => None
  end.

Definition exact_eqb (a b : ratio) : bool :=
  match a, b with
  | Some x, Some y => Qeq_bool x y
  | _, _ => false
  end.

Definition exact_ltb (a b : ratio) : bool :=
  match a, b with
  | Some x, Some y => negb (Qle_bool y x)
  | _, _ => false
  end.

Definition exact : arithmetic ratio :=
  mkArithmetic (Some 0%Q) None (exact_op Qplus) (exact_op Qminus) (option_map Qopp)
    (exact_op Qdiv) (fun z => Some (inject_Z z)) exact_eqb exact_ltb
    (fun a => exact_ltb a (Some 0%Q)) (fun _ => false).

(** ** Rolling mean

    [Series.rolling(window=window).mean()] as pandas computes it with the
    defaults the job uses: a fixed window, [min_periods] equal to the window
    size, no centring.  The window is validated when the [Rolling] object is
    built.  The aggregation turns infinite values into missing ones, takes
    the bounds of every row from the fixed window indexer and walks the rows
    once ([roll_mean] of [window/aggregations.pyx]).  It keeps the number of
    observations and their sum, adds the rows that enter the window and
    removes the rows that leave it with compensated (Kahan) summation, and
    NaN rows are no observations.  It also keeps what pandas uses against
    rounding error: the number of negative observations, to clamp a mean of
    the wrong sign to zero, and the number of equal values seen in a row, to
    return that value itself when the whole window is made of it. *)

Definition clip (x lo hi : Z) : Z := Z.min (Z.max x lo) hi.

(** The bounds of a fixed window: row [i] aggregates rows [start, end). *)
Definition window_end (N i : Z) : Z := clip (i + 1) 0 N.
Definition window_start (w N i : Z) : Z := clip (i + 1 - w) 0 N.

(** [range(a, b)] *)
Definition range (a b : Z) : list Z :=
  map (fun k => a + Z.of_nat k) (seq 0 (Z.to_nat (b - a))).

Record mean_state (F : Type) : Type := mkState {
  nobs : Z;
  sum_x : F;
  neg_ct : Z;
  compensation_add : F;
  compensation_remove : F;
  num_consecutive_same_value : Z;
  prev_value : F
}.
Arguments mkState {F} _ _ _ _ _ _ _.
Arguments nobs {F} _.
Arguments sum_x {F} _.
Arguments neg_ct {F} _.
Arguments compensation_add {F} _.
Arguments compensation_remove {F} _.
Arguments num_consecutive_same_value {F} _.
Arguments prev_value {F} _.

Section Aggregation.

Context {F : Type} (A : arithmetic F).

(** The state a window is set up with; [first] is the value at its start. *)
Definition fresh_state (first : F) : mean_state F :=
  mkState 0 (a_zero A) 0 (a_zero A) (a_zero A) 0 first.

Definition add_mean (val : F) (st : mean_state F) : mean_state F :=
  if a_eqb A val val
  then
    let y := a_sub A val (compensation_add st) in
    let t := a_add A (sum_x st) y in
    mkState (nobs st + 1) t
      (if a_signbit A val then neg_ct st + 1 else neg_ct st)
      (a_sub A (a_sub A t (sum_x st)) y)
      (compensation_remove st)
      (if a_eqb A val (prev_value st) then num_consecutive_same_value st + 1 else 1)
      val
  else st.

Definition remove_mean (val : F) (st : mean_state F) : mean_state F :=
  if a_eqb A val val
  then
    let y := a_sub A (a_opp A val) (compensation_remove st) in
    let t := a_add A (sum_x st) y in
    mkState (nobs st - 1) t
      (if a_signbit A val then neg_ct st - 1 else neg_ct st)
      (compensation_add st)
      (a_sub A (a_sub A t (sum_x st)) y)
      (num_consecutive_same_value st)
      (prev_value st)
  else st.

Definition calc_mean (minp : Z) (st : mean_state F) : F :=
  if (minp <=? nobs st) && (0 <? nobs st)
  then
    let result := a_div A (sum_x st) (a_of_count A (nobs st)) in
    if nobs st <=? num_consecutive_same_value st then prev_value st
    else if (neg_ct st =? 0) && a_ltb A result (a_zero A) then a_zero A
    else if (neg_ct st =? nobs st) && a_ltb A (a_zero A) result then a_zero A
    else result
  else a_nan A.

(** [values[j]]; a window of no row is set up on the value after the last. *)
Definition value_at (values : list F) (j : Z) : F :=
  nth (Z.to_nat j) values (a_nan A).

Definition add_range (values : list F) (a b : Z) (st : mean_state F) : mean_state F :=
  fold_left (fun st j => add_mean (value_at values j) st) (range a b) st.

Definition remove_range (values : list F) (a b : Z) (st : mean_state F) : mean_state F :=
  fold_left (fun st j => remove_mean (value_at values j) st) (range a b) st.

(** One turn of the loop over the rows: the state of the previous row comes
    in, the state and the output of row [i] go out. *)
Definition roll_step (values : list F) (w minp : Z)
    (acc : mean_state F * list F) (i : Z) : mean_state F * list F :=
  let N := Z.of_nat (List.length values) in
  let s := window_start w N i in
  let e := window_end N i in
  let st :=
    if (i =? 0) || (window_end N (i - 1) <=? s)
    then add_range values s e (fresh_state (value_at values s))
    else add_range values (window_end N (i - 1)) e
           (remove_range values (window_start w N (i - 1)) s (fst acc)) in
  (st, snd acc ++ [calc_mean minp st]).

Definition roll_loop (values : list F) (w minp : Z) : list F :=
  snd (fold_left (roll_step values w minp)
         (range 0 (Z.of_nat (List.length values))) (fresh_state (a_nan A), [])).

(** Infinite values are made missing before the aggregation. *)
Definition prep_value (x : F) : F := if a_isinf A x then a_nan A else x.

Definition prep_values (values : list F) : list F := map prep_value values.

Definition roll_mean_in (values : list F) (w minp : Z) : list F :=
  roll_loop (prep_values values) w minp.

End Aggregation.

(** The rolling mean of a float column, for a window [w] that fits an int64. *)
Definition roll_mean (values : list float) (w minp : Z) : list float :=
  roll_mean_in binary64 values w minp.

(** [series.rolling(window=window)]: the window must be an integer, not a
    boolean, and not negative. *)
Definition rolling (s : series) (window : pyval) : result (series * Z) :=
  match window with
  | PyInt w =>
      if w <? 0 then Raise (ValueError "window must be an integer 0 or greater")
      else Return (s, w)
  | _ => Raise (ValueError "window must be an integer 0 or greater")
  end.

(** The float view of a numeric column, integers cast to the double next to
    them; an object column has none. *)
Definition to_float64 (s : series) : option (list float) :=
  match s with
  | Float64 v => Some v
  | Int64 v => Some (map float_of_Z v)
  | Bool v => Some (map (fun b : bool => if b then one else zero) v)
  | Object _ => None
  end.

(** [.mean()] on the rolling object: numeric columns only, and the bounds of
    the windows are int64 numbers, which a window of [2 ^ 63] or more does
    not fit. *)
Definition rolling_mean (r : series * Z) : result series :=
  let '(s, w) := r in
  match to_float64 s with
  | Some v =>
      if 2 ^ 63 <=? w
      then Raise (OverflowError "Python int too large to convert to C long")
      else Return (Float64 (roll_mean v w w))
  | None => Raise (DataError "No numeric types to aggregate")
  end.

(** ** Signal and metric *)

(** [a > b] on floats: false as soon as one side is NaN *)
Definition float_gt (a b : float) : bool := ltb b a.

Fixpoint zip_with {A B C} (f : A -> B -> C) (l : list A) (m : list B) : list C :=
  match l, m with
  | a :: l', b :: m' => f a b :: zip_with f l' m'
  | _, _ => []
  end.

(** [a > b] on two columns of one table, row by row: a boolean mask *)
Definition series_gt (a b : series) : result (list bool) :=
  match to_float64 a, to_float64 b with
  | Some x, Some y =>
      if (List.length x =? List.length y)%nat
      then Return (zip_with float_gt x y)
      else Raise (ValueError "Can only compare identically-labeled Series objects")
  | _, _ => Raise (TypeError "'>' not supported between instances of 'str' and 'float'")
  end.

Definition int_of_bool (b : bool) : Z := if b then 1 else 0.

(** [.astype(int)] on a boolean mask *)
Definition astype_int (mask : list bool) : series := Int64 (map int_of_bool mask).

Definition Zsum (l : list Z) : Z := fold_right Z.add 0 l.

(** [series.mean()] of an integer column: NaN when there is no row *)
Definition mean_int (v : list Z) : ratio :=
  match v with
  | [] => None
  | _ => Some (inject_Z (Zsum v) / inject_Z (Z.of_nat (List.length v)))%Q
  end.

(** The number a finite float stands for. *)
Definition float_value (x : float) : option Q :=
  match FloatOps.Prim2SF x with
  | SpecFloat.S754_zero _ => Some 0%Q
  | SpecFloat.S754_finite s m e =>
      let magnitude := (inject_Z (Z.pos m) * 2 ^ e)%Q in
      Some (if s then - magnitude else magnitude)%Q
  | _ => None
  end.

(** The sum of the numbers of a float column, missing values skipped; there
    is none when a value is infinite. *)
Fixpoint sum_values (v : list float) : option (Q * Z) :=
  match v with
  | [] => Some (0%Q, 0)
  | x :: rest =>
      match sum_values rest with
      | Some (total, count) =>
          if is_nan x then Some (total, count)
          else match float_value x with
               | Some q => Some ((q + total)%Q, count + 1)
               | None => None
               end
      | None => None
      end
  end.

(** The mean of a float column as an exact number.  The job only takes the
    mean of the integer column it has just built. *)
Definition mean_float (v : list float) : ratio :=
  match sum_values v with
  | Some (total, count) => if count =? 0 then None else Some (total / inject_Z count)%Q
  | None => None
  end.

Definition series_mean (s : series) : result ratio :=
  match s with
  | Int64 v => Return (mean_int v)
  | Bool v => Return (mean_int (map int_of_bool v))
  | Float64 v => Return (mean_float v)
  | Object _ => Raise (TypeError "Could not convert to numeric")
  end.

(** Rounding to the nearest integer, ties to the even one. *)
Definition round_half_even (q : Q) : Z :=
  let f := Qfloor q in
  let r := (q - inject_Z f)%Q in
  match (r ?= 1 # 2)%Q with
  | Lt => f
  | Gt => f + 1
  | Eq => if Z.even f then f else f + 1
  end.

(** [round(x, 4)] *)
Definition round4 (x : ratio) : ratio :=
  match x with
  | Some q => Some (inject_Z (round_half_even (q * 10000)) / 10000)%Q
  | None => None
  end.

(** The binary exponent of the quotient of two positive integers: the [e]
    with [2 ^ e <= a / b < 2 ^ (e + 1)]. *)
Definition binary_exponent (a b : positive) : Z :=
  let d := Z.log2 (Z.pos a) - Z.log2 (Z.pos b) in
  let fits := if 0 <=? d then Z.pos b * 2 ^ d <=? Z.pos a
              else Z.pos b <=? Z.pos a * 2 ^ (- d) in
  if fits then d else d - 1.

(** The double next to a positive quotient, in the normal range of binary64:
    the quotient is scaled to 53 bits before the point, rounded to the
    nearest integer, ties to the even one, and scaled back. *)
Definition nearest_double_pos (a b : positive) : Q :=
  let e := 52 - binary_exponent a b in
  if 0 <=? e
  then (inject_Z (round_half_even ((Z.pos a # b) * inject_Z (2 ^ e)))
        / inject_Z (2 ^ e))%Q
  else (inject_Z (round_half_even ((Z.pos a # b) / inject_Z (2 ^ (- e))))
        * inject_Z (2 ^ (- e)))%Q.

Definition nearest_double (q : Q) : Q :=
  match Qnum q with
  | Z0 => 0%Q
  | Z.pos a => nearest_double_pos a (Qden q)
  | Z.neg a => (- nearest_double_pos a (Qden q))%Q
  end.

(** [float(signal_rate)]: the double the program holds for the rate, the
    quotient of the two counts in binary64. *)
Definition py_float (x : ratio) : ratio := option_map nearest_double x.

(** [int(x)] of a finite float: truncation towards zero *)
Definition int_of_Q (q : Q) : Z :=
  if Qle_bool 0 q then Qfloor q else Qceiling q.

(** ** Reports and effects *)

Record success_report : Type := mkSuccess {
  s_version : pyval;
  s_rows_processed : nat;
  s_metric : string;
  s_value : ratio;
  s_latency_ms : Z;
  s_seed : pyval;
  s_status : string
}.

Record error_report : Type := mkError {
  e_version : pyval;
  e_status : string;
  e_error_message : string
}.

Inductive report : Type :=
| OnSuccess (r : success_report)
| OnError (r : error_report).

(** [json.dump] walks the document and fails on the first value it cannot
    serialise. *)
Definition report_serializable (doc : report) : bool :=
  match doc with
  | OnSuccess r => json_serializable (s_version r) && json_serializable (s_seed r)
  | OnError r => json_serializable (e_version r)
  end.

Inductive level : Type := INFO | ERROR.

Inductive message : Type :=
| JobStarted
| ConfigLoaded (seed window version : pyval)
| DataLoaded (rows : nat)
| RollingMeanCalculated (window : pyval)
| SignalsGenerated
| Metrics (signal_rate : ratio) (rows : nat)
| JobCompleted (latency_ms : Z)
| ErrorOccurred (text : string)
| JobFailed (latency_ms : Z).

(** What a run does to the outside: a line in the log, text on standard
    output, or the output file opened for writing and filled with a document,
    wholly ([complete = true]) or up to the value that could not be
    serialised. *)
Inductive event : Type :=
| Log (lvl : level) (msg : message)
| PrintPreview (close rolling_mean : series)
| PrintReport (doc : report)
| WriteFile (path : string) (doc : report) (complete : bool).

Record state : Type := mkSt {
  effects : list event;
  config_var : option pyval   (* the local [config], once it is assigned *)
}.

Definition M (A : Type) : Type := state -> result A * state.

Definition ret {A} (a : A) : M A := fun st => (Return a, st).

Definition bind {A B} (m : M A) (k : A -> M B) : M B :=
  fun st =>
    match m st with
    | (Return a, st') => k a st'
    | (Raise e, st') => (Raise e, st')
    end.

Declare Scope job_scope.
Delimit Scope job_scope with job.
Notation "x <- m ;; k" := (bind m (fun x => k))
  (at level 61, m at next level, right associativity) : job_scope.
Notation "m ;; k" := (bind m (fun _ => k))
  (at level 61, right associativity) : job_scope.

Definition lift {A} (r : result A) : M A := fun st => (r, st).

Definition emit (ev : event) : M unit :=
  fun st => (Return tt, mkSt (effects st ++ [ev]) (config_var st)).

Definition assign_config (config : pyval) : M unit :=
  fun st => (Return tt, mkSt (effects st) (Some config)).

Definition locals_config : M (option pyval) :=
  fun st => (Return (config_var st), st).

(** [try: body except Exception as e: handler e] *)
Definition try_except (body : M unit) (handler : exn -> M unit) : M unit :=
  fun st =>
    match body st with
    | (Raise e, st') => if is_Exception e then handler e st' else (Raise e, st')
    | done => done
    end.

(** [sys.exit(code)] *)
Definition sys_exit (code : Z) : M unit := lift (Raise (SystemExit code)).

(** The status the process ends with: the code given to [sys.exit], 1 after
    an exception nobody caught, 0 when the script runs to its end. *)
Definition exit_code (r : result unit) : Z :=
  match r with
  | Return _ => 0
  | Raise (SystemExit code) => code
  | Raise _ => 1
  end.

Record arguments : Type := mkArgs {
  input : string;
  config : string;
  output : string;
  log_file : string
}.

Record world : Type := mkWorld {
  fs : filesystem;
  writable : string -> bool;   (* can the path be opened for writing *)
  t_start : Q;                 (* [time.time()] before the [try] *)
  t_end : Q;                   (* [time.time()] when the success report is built *)
  t_fail : Q                   (* [time.time()] on entry to the handler *)
}.

(** [int((time.time() - start_time) * 1000)], in the body and in the handler *)
Definition elapsed_ms (w : world) : Z := int_of_Q ((t_end w - t_start w) * 1000).
Definition failed_ms (w : world) : Z := int_of_Q ((t_fail w - t_start w) * 1000).

(** [with open(path, "w") as f: json.dump(doc, f, indent=4)] *)
Definition write_json (w : world) (path : string) (doc : report) : M unit :=
  if negb (writable w path)
  then lift (Raise (OSError "cannot open the output file"))
  else if report_serializable doc
  then emit (WriteFile path doc true)
  else (emit (WriteFile path doc false) ;;
        lift (Raise (TypeError "Object of type date is not JSON serializable")))%job.

(** [series.head(n)] *)
Definition head (n : nat) (s : series) : series :=
  match s with
  | Float64 v => Float64 (firstn n v)
  | Int64 v => Int64 (firstn n v)
  | Bool v => Bool (firstn n v)
  | Object v => Object (firstn n v)
  end.

(** ** The job *)

(** What [numpy.random.seed] answers to a value: it takes it, or raises a
    [ValueError] or a [TypeError]. *)
Inductive seed_check : Type :=
| Seeded
| SeedValueError (msg : string)
| SeedTypeError (msg : string).

(** Lines 84 to 94 of [main]: rolling mean, preview, signal, metric.  The
    block leaves the table with its two new columns, and the rate. *)
Definition compute_signal (df : DataFrame) (window : pyval) : M (DataFrame * ratio) :=
  (close <- lift (df_getitem df "close") ;;
   roll <- lift (rolling close window) ;;
   rm <- lift (rolling_mean roll) ;;
   let df1 := df_setitem df "rolling_mean" rm in
   c10 <- lift (df_getitem df1 "close") ;;
   r10 <- lift (df_getitem df1 "rolling_mean") ;;
   emit (PrintPreview (head 10 c10) (head 10 r10)) ;;
   emit (Log INFO (RollingMeanCalculated window)) ;;
   c <- lift (df_getitem df1 "close") ;;
   r <- lift (df_getitem df1 "rolling_mean") ;;
   above <- lift (series_gt c r) ;;
   let signal := astype_int above in
   let df2 := df_setitem df1 "signal" signal in
   emit (Log INFO SignalsGenerated) ;;
   sig <- lift (df_getitem df2 "signal") ;;
   signal_rate <- lift (series_mean sig) ;;
   ret (df2, signal_rate))%job.

(** The library functions the job is parameterised by: the two parsers, on
    the text of a file, and the seeding of the generator. *)
Record libraries : Type := mkLibraries {
  safe_load : string -> parsed pyval;
  read_csv : string -> parsed DataFrame;
  np_random_seed : pyval -> seed_check
}.

Section Job.

Variable lib : libraries.

Definition load_config (files : filesystem) (config_path : string) : result pyval :=
  match files config_path with
  | None => Raise (FileNotFoundError "Configuration file not found")
  | Some text =>
      match safe_load lib text with
      | ParseError msg => Raise (YAMLError msg)
      | Parsed cfg =>
          (_ <- check_keys required_keys cfg ;; Return cfg)%result
      end
  end.

Definition load_data (files : filesystem) (input_path : string) : result DataFrame :=
  match files input_path with
  | None => Raise (FileNotFoundError "Input CSV file not found")
  | Some text =>
      match read_csv lib text with
      | ParseError _ => Raise (ValueError "Invalid CSV file format")
      | Parsed df =>
          if df_empty df then Raise (ValueError "Input file is empty")
          else if negb (has_column "close" df)
          then Raise (ValueError "Missing required column: close")
          else Return df
      end
  end.

Definition seed_generator (seed : pyval) : result unit :=
  match np_random_seed lib seed with
  | Seeded => Return tt
  | SeedValueError msg => Raise (ValueError msg)
  | SeedTypeError msg => Raise (TypeError msg)
  end.

(** The success report and what follows it, lines 96 to 115. *)
Definition emit_success (args : arguments) (w : world)
    (version seed : pyval) (rows_processed : nat) (signal_rate : ratio) : M unit :=
  (let latency_ms := elapsed_ms w in
   let out := OnSuccess (mkSuccess version rows_processed "signal_rate"
                           (round4 (py_float signal_rate)) latency_ms seed "success") in
   write_json w (output args) out ;;
   emit (Log INFO (Metrics signal_rate rows_processed)) ;;
   emit (Log INFO (JobCompleted latency_ms)) ;;
   emit (PrintReport out) ;;
   sys_exit 0)%job.

(** The body of the [try] in [main]. *)
Definition try_body (args : arguments) (w : world) : M unit :=
  (cfg <- lift (load_config (fs w) (config args)) ;;
   assign_config cfg ;;
   seed <- lift (py_getitem cfg "seed") ;;
   window <- lift (py_getitem cfg "window") ;;
   version <- lift (py_getitem cfg "version") ;;
   emit (Log INFO (ConfigLoaded seed window version)) ;;
   lift (seed_generator seed) ;;
   df <- lift (load_data (fs w) (input args)) ;;
   let rows_processed := index_len df in
   emit (Log INFO (DataLoaded rows_processed)) ;;
   computed <- compute_signal df window ;;
   let signal_rate := snd computed in
   emit_success args w version seed rows_processed signal_rate)%job.

(** The [except Exception as e] block. *)
Definition handler (args : arguments) (w : world) (e : exn) : M unit :=
  (let latency_ms := failed_ms w in
   bound <- locals_config ;;
   version <- match bound with
              | Some cfg => lift (py_getitem cfg "version")
              | None => ret (PyStr "unknown")
              end ;;
   let error_output := OnError (mkError version "error" (str_exn e)) in
   write_json w (output args) error_output ;;
   emit (Log ERROR (ErrorOccurred (str_exn e))) ;;
   emit (Log INFO (JobFailed latency_ms)) ;;
   emit (PrintReport error_output) ;;
   sys_exit 1)%job.

Definition main (args : arguments) (w : world) : result unit * state :=
  (emit (Log INFO JobStarted) ;;
   try_except (try_body args w) (handler args w))%job
    (mkSt [] None).

(** The configuration is loaded, its three values are read and the
    generator took the seed. *)
Definition configured (args : arguments) (w : world) (cfg seed window version : pyval)
  : Prop :=
  load_config (fs w) (config args) = Return cfg
  /\ py_getitem cfg "seed" = Return seed
  /\ py_getitem cfg "window" = Return window
  /\ py_getitem cfg "version" = Return version
  /\ seed_generator seed = Return tt.

End Job.

(** ** What a run leaves behind *)

Definition run_exit_code (run : result unit * state) : Z := exit_code (fst run).

Definition run_effects (run : result unit * state) : list event := effects (snd run).

Fixpoint writes_to (path : string) (evs : list event) : list (report * bool) :=
  match evs with
  | [] => []
  | WriteFile p doc complete :: rest =>
      if String.eqb p path then (doc, complete) :: writes_to path rest
      else writes_to path rest
  | _ :: rest => writes_to path rest
  end.

(** ** The rows of a window *)


(** A close the aggregation cannot count: a missing or an infinite one. *)
Definition unusable (c : float) : bool := is_nan c || is_infinity c.

(** Equality of rates as numbers: a missing rate only matches a missing
    rate. *)
Definition float_eq (a b : ratio) : Prop :=
  match a, b with
  | Some x, Some y => (x == y)%Q
  | None, None => True
  | _, _ => False
  end.

(** ** The arithmetic mean *)




(** ** Auxiliary notions for the proofs *)



(** The observations in a list of rows: the values equal to themselves. *)
Fixpoint count_obs {F} (A : arithmetic F) (l : list F) : Z :=
  match l with
  | [] => 0
  | x :: rest => (if a_eqb A x x then 1 else 0) + count_obs A rest
  end.

(** The rows inside the bounds of row [i]. *)
Definition window_rows {F} (A : arithmetic F) (values : list F) (w i : Z) : list F :=
  let N := Z.of_nat (List.length values) in
  map (value_at A values) (range (window_start w N i) (window_end N i)).

(** The loop after its first [n] turns, and the state it holds then. *)
Definition loop_acc {F} (A : arithmetic F) (values : list F) (w minp : Z) (n : nat)
  : mean_state F * list F :=
  fold_left (roll_step A values w minp) (range 0 (Z.of_nat n))
    (fresh_state A (a_nan A), []).

Definition loop_state {F} (A : arithmetic F) (values : list F) (w minp : Z) (n : nat)
  : mean_state F :=
  fst (loop_acc A values w minp n).

(** ** The documents and states of a run *)

(** What the handler writes, given the version it finds. *)
Definition error_doc (version : pyval) (e : exn) : report :=
  OnError (mkError version "error" (str_exn e)).

(** The report of a run that went through. *)
Definition success_doc (w : world) (version seed : pyval) (rows : nat) (rate : ratio)
  : report :=
  OnSuccess (mkSuccess version rows "signal_rate" (round4 (py_float rate)) (elapsed_ms w)
               seed "success").

(** The state in which the signal block starts. *)
Definition loaded_state (cfg seed window version : pyval) (rows : nat) : state :=
  mkSt [Log INFO JobStarted; Log INFO (ConfigLoaded seed window version);
        Log INFO (DataLoaded rows)] (Some cfg).

(** ** The specification's signal and metric *)


(** The signal column the job derives from a numeric [close] column. *)
Definition signal_of (close : list float) (w : Z) : list Z :=
  map int_of_bool (zip_with float_gt close (roll_mean close w w)).

(** Rows whose signal is 1. *)
Definition count_ones (signal : list Z) : nat := count_occ Z.eq_dec signal 1.

(** What [compute_signal] returns, without its effects: the table with its
    two new columns and the rate, and the rate alone. *)
Definition signal_block_of (df : DataFrame) (window : pyval) : result (DataFrame * ratio) :=
  fst (compute_signal df window (mkSt [] None)).

Definition signal_rate_of (df : DataFrame) (window : pyval) : result ratio :=
  (computed <- signal_block_of df window ;; Return (snd computed))%result.

(** A result the [except Exception] clause would catch, if it is a fault. *)
Definition catchable {A} (r : result A) : Prop :=
  match r with
  | Return _ => True
  | Raise e => is_Exception e = true
  end.

(** ** Runs compared up to timing *)

(** A report, and an effect, with the elapsed time blanked out. *)
Definition erase_latency (doc : report) : report :=
  match doc with
  | OnSuccess r =>
      OnSuccess (mkSuccess (s_version r) (s_rows_processed r) (s_metric r) (s_value r)
                   0 (s_seed r) (s_status r))
  | OnError _ => doc
  end.

Definition erase_event (ev : event) : event :=
  match ev with
  | Log lvl (JobCompleted _) => Log lvl (JobCompleted 0)
  | Log lvl (JobFailed _) => Log lvl (JobFailed 0)
  | Log _ _ => ev
  | PrintPreview _ _ => ev
  | PrintReport doc => PrintReport (erase_latency doc)
  | WriteFile path doc complete => WriteFile path (erase_latency doc) complete
  end.

Definition same_state (a b : state) : Prop :=
  config_var a = config_var b
  /\ map erase_event (effects a) = map erase_event (effects b).

Definition same_run {A} (x y : result A * state) : Prop :=
  fst x = fst y /\ same_state (snd x) (snd y).

Definition same_job {A} (m1 m2 : M A) : Prop :=
  forall a b, same_state a b -> same_run (m1 a) (m2 b).

(** ** A test bench

    Libraries whose parsers answer with a given document and a given table,
    and a small world around them, to run the job on. *)

Definition seed_integer (v : pyval) : bool :=
  match v with
  | PyInt _ | PyBool _ => true
  | _ => false
  end.

Definition seed_in_range (v : pyval) : bool :=
  match v with
  | PyInt z => (0 <=? z) && (z <? 2 ^ 32)
  | _ => true
  end.

(** A seed is [None], an integer of 32 bits (a boolean is one), or a list
    of such integers. *)
Definition bench_seed (v : pyval) : seed_check :=
  let seeds :=
    match v with
    | PyList (first :: rest) => first :: rest
    | _ => [v]
    end in
  match v with
  | PyNone => Seeded
  | _ =>
      if negb (forallb seed_integer seeds)
      then SeedTypeError "Cannot cast scalar to int64"
      else if forallb seed_in_range seeds then Seeded
      else SeedValueError "Seed must be between 0 and 2**32 - 1"
  end.

Definition bench_lib (document : parsed pyval) (table : parsed DataFrame) : libraries :=
  mkLibraries (fun _ => document) (fun _ => table) bench_seed.

Definition bench_args : arguments :=
  mkArgs "data.csv" "config.yaml" "metrics.json" "run.log".

Definition bench_files : filesystem :=
  fun path =>
    if String.eqb path "config.yaml" then Some "config"
    else if String.eqb path "data.csv" then Some "table"
    else None.

Definition bench_world : world :=
  mkWorld bench_files (fun _ => true) 0 (3 # 2) (7 # 4).

Definition bench_config (window version : pyval) : pyval :=
  PyDict [("seed", PyInt 42); ("window", window); ("version", version)].

Definition bench_table : DataFrame :=
  mkDataFrame 3 [("timestamp", Object ["t0"; "t1"; "t2"]); ("close", Int64 [1; 2; 6])].

(** ** What the log and the output say about a fault *)

(** The messages logged at level ERROR, in order. *)
Fixpoint error_lines (evs : list event) : list message :=
  match evs with
  | [] => []
  | Log ERROR msg :: rest => msg :: error_lines rest
  | _ :: rest => error_lines rest
  end.

(** The messages of the error reports that were written in full. *)
Fixpoint error_messages (writes : list (report * bool)) : list string :=
  match writes with
  | [] => []
  | (OnError r, true) :: rest => e_error_message r :: error_messages rest
  | _ :: rest => error_messages rest
  end.

(** * Properties *)

(** ** Ranges and slices *)

Lemma range_length (a b : Z) : List.length (range a b) = Z.to_nat (b - a).
Proof. unfold range. now rewrite length_map, length_seq. Qed.

Lemma range_empty (a b : Z) : b <= a -> range a b = [].
Proof.
  intros H. unfold range. replace (Z.to_nat (b - a)) with 0%nat by lia. reflexivity.
Qed.

Lemma range_cons (a b : Z) : a < b -> range a b = a :: range (a + 1) b.
Proof.
  intros H. unfold range.
  replace (Z.to_nat (b - a)) with (S (Z.to_nat (b - (a + 1)))) by lia.
  cbn [seq map]. f_equal; [lia|].
  rewrite <- seq_shift, map_map. apply map_ext. intros k. lia.
Qed.

Lemma range_split (a b c : Z) : a <= b <= c -> range a c = range a b ++ range b c.
Proof.
  intros H. remember (Z.to_nat (b - a)) as n eqn:Hn.
  revert a H Hn. induction n as [|n IH]; intros a H Hn.
  - assert (a = b) by lia. subst. now rewrite (range_empty b b) by lia.
  - rewrite (range_cons a c), (range_cons a b) by lia.
    cbn [app]. f_equal. apply IH; lia.
Qed.

Lemma range_snoc (a b : Z) : a <= b -> range a (b + 1) = range a b ++ [b].
Proof.
  intros H. rewrite (range_split a b (b + 1)) by lia.
  f_equal. rewrite range_cons by lia. now rewrite range_empty by lia.
Qed.

(** ** The running state of the aggregation *)

Section AggregationProperties.

Context {F : Type} (A : arithmetic F).


Lemma value_at_nth_error (values : list F) (i : nat) (x : F) :
  nth_error values i = Some x -> value_at A values (Z.of_nat i) = x.
Proof.
  intros H. unfold value_at. rewrite Nat2Z.id. now apply nth_error_nth.
Qed.

Lemma count_obs_app (l m : list F) :
  count_obs A (l ++ m) = count_obs A l + count_obs A m.
Proof. induction l as [|x l IH]; cbn [app count_obs]; [reflexivity | lia]. Qed.

Lemma count_obs_bounds (l : list F) : 0 <= count_obs A l <= Z.of_nat (List.length l).
Proof.
  induction l as [|x l IH]; cbn [count_obs List.length]; [lia|].
  destruct (a_eqb A x x); lia.
Qed.


Lemma add_mean_nobs (val : F) (st : mean_state F) :
  nobs (add_mean A val st) = nobs st + (if a_eqb A val val then 1 else 0).
Proof. unfold add_mean. destruct (a_eqb A val val); cbn [nobs]; lia. Qed.

Lemma remove_mean_nobs (val : F) (st : mean_state F) :
  nobs (remove_mean A val st) = nobs st - (if a_eqb A val val then 1 else 0).
Proof. unfold remove_mean. destruct (a_eqb A val val); cbn [nobs]; lia. Qed.

Lemma add_fold_nobs (values : list F) (idx : list Z) (st : mean_state F) :
  nobs (fold_left (fun st j => add_mean A (value_at A values j) st) idx st)
  = nobs st + count_obs A (map (value_at A values) idx).
Proof.
  revert st. induction idx as [|j idx IH]; intros st; cbn [fold_left map count_obs]; [lia|].
  rewrite IH, add_mean_nobs. lia.
Qed.

Lemma remove_fold_nobs (values : list F) (idx : list Z) (st : mean_state F) :
  nobs (fold_left (fun st j => remove_mean A (value_at A values j) st) idx st)
  = nobs st - count_obs A (map (value_at A values) idx).
Proof.
  revert st. induction idx as [|j idx IH]; intros st; cbn [fold_left map count_obs]; [lia|].
  rewrite IH, remove_mean_nobs. lia.
Qed.

(** The loop keeps the number of observations of the window of its row. *)
Lemma roll_step_nobs (values : list F) (w minp : Z)
    (acc : mean_state F * list F) (i : Z) :
  0 <= w -> 0 <= i < Z.of_nat (List.length values) ->
  (0 < i -> nobs (fst acc) = count_obs A (window_rows A values w (i - 1))) ->
  nobs (fst (roll_step A values w minp acc i)) = count_obs A (window_rows A values w i).
Proof.
  intros Hw Hi Hprev. unfold roll_step, window_rows in *. cbn [fst].
  set (N := Z.of_nat (List.length values)) in *.
  destruct ((i =? 0) || (window_end N (i - 1) <=? window_start w N i)) eqn:Hfresh.
  - unfold add_range. rewrite add_fold_nobs. cbn [nobs fresh_state]. lia.
  - apply orb_false_iff in Hfresh. destruct Hfresh as [Hi0 Hov].
    apply Z.eqb_neq in Hi0. apply Z.leb_gt in Hov.
    specialize (Hprev ltac:(lia)).
    assert (Hs : window_start w N (i - 1) <= window_start w N i
                 /\ window_start w N i <= window_end N (i - 1)
                 /\ window_end N (i - 1) <= window_end N i)
      by (unfold window_start, window_end, clip in *; lia).
    destruct Hs as (H1 & H2 & H3).
    rewrite (range_split _ (window_start w N i) (window_end N (i - 1))) in Hprev by lia.
    rewrite map_app, count_obs_app in Hprev.
    unfold add_range, remove_range. rewrite add_fold_nobs, remove_fold_nobs.
    rewrite (range_split (window_start w N i) (window_end N (i - 1)) (window_end N i)) by lia.
    rewrite map_app, count_obs_app. lia.
Qed.

Lemma loop_acc_succ (values : list F) (w minp : Z) (n : nat) :
  loop_acc A values w minp (S n)
  = roll_step A values w minp (loop_acc A values w minp n) (Z.of_nat n).
Proof.
  unfold loop_acc. replace (Z.of_nat (S n)) with (Z.of_nat n + 1) by lia.
  rewrite range_snoc by lia. now rewrite fold_left_app.
Qed.

Lemma loop_out_length (values : list F) (w minp : Z) (n : nat) :
  List.length (snd (loop_acc A values w minp n)) = n.
Proof.
  induction n as [|n IH]; [reflexivity|].
  rewrite loop_acc_succ. unfold roll_step. cbn [snd].
  rewrite length_app, IH. cbn. lia.
Qed.

(** The value put out for a row is computed from the state of that row. *)
Lemma loop_out_nth (values : list F) (w minp : Z) (n k : nat) :
  (k < n)%nat ->
  nth_error (snd (loop_acc A values w minp n)) k
  = Some (calc_mean A minp (loop_state A values w minp (S k))).
Proof.
  induction n as [|n IH]; intros Hk; [lia|].
  rewrite loop_acc_succ.
  destruct (Nat.eq_dec k n) as [->|Hne].
  - unfold loop_state. rewrite loop_acc_succ. unfold roll_step at 1. cbn [snd].
    rewrite nth_error_app2 by (rewrite loop_out_length; lia).
    rewrite loop_out_length, Nat.sub_diag. reflexivity.
  - unfold roll_step. cbn [snd].
    rewrite nth_error_app1 by (rewrite loop_out_length; lia).
    apply IH. lia.
Qed.

Lemma loop_nobs (values : list F) (w minp : Z) (n : nat) :
  0 <= w -> (n < List.length values)%nat ->
  nobs (loop_state A values w minp (S n))
  = count_obs A (window_rows A values w (Z.of_nat n)).
Proof.
  intros Hw. induction n as [|n IH]; intros Hn; unfold loop_state; rewrite loop_acc_succ.
  - apply roll_step_nobs; [assumption | lia | lia].
  - apply roll_step_nobs; [assumption | lia |].
    intros _. replace (Z.of_nat (S n) - 1) with (Z.of_nat n) by lia.
    apply IH. lia.
Qed.

Lemma roll_loop_length (values : list F) (w minp : Z) :
  List.length (roll_loop A values w minp) = List.length values.
Proof. apply loop_out_length. Qed.

Lemma roll_loop_nth (values : list F) (w minp : Z) (i : nat) :
  (i < List.length values)%nat ->
  nth_error (roll_loop A values w minp) i
  = Some (calc_mean A minp (loop_state A values w minp (S i))).
Proof. intros Hi. now apply loop_out_nth. Qed.

(** Short of [minp] observations, or without any, the mean is missing. *)
Lemma calc_mean_few (minp : Z) (st : mean_state F) :
  nobs st < minp \/ nobs st <= 0 -> calc_mean A minp st = a_nan A.
Proof.
  intros Hfew. unfold calc_mean.
  replace ((minp <=? nobs st) && (0 <? nobs st)) with false; [reflexivity|].
  symmetry. apply andb_false_iff.
  destruct Hfew; [left; apply Z.leb_gt | right; apply Z.ltb_ge]; lia.
Qed.

(** ** The window of a row, as a slice *)


Lemma window_rows_short (values : list F) (w : Z) (i : nat) :
  (i < List.length values)%nat -> Z.of_nat i < w - 1 \/ w = 0 ->
  count_obs A (window_rows A values w (Z.of_nat i)) < w
  \/ count_obs A (window_rows A values w (Z.of_nat i)) <= 0.
Proof.
  intros Hi Hshort.
  pose proof (count_obs_bounds (window_rows A values w (Z.of_nat i))) as Hb.
  unfold window_rows in *. rewrite length_map, range_length in Hb.
  unfold window_start, window_end, clip in *. lia.
Qed.

(** Rows before the first full window: the output is the missing value. *)
Lemma roll_loop_undefined (values : list F) (w : Z) (i : nat) :
  0 <= w -> (i < List.length values)%nat -> Z.of_nat i < w - 1 \/ w = 0 ->
  nth_error (roll_loop A values w w) i = Some (a_nan A).
Proof.
  intros Hw Hi Hshort. rewrite roll_loop_nth by assumption. f_equal.
  apply calc_mean_few. rewrite loop_nobs by assumption.
  now apply window_rows_short.
Qed.


(** With a window of one row every window is set up afresh on its row, and
    the mean is the value of the row itself, or missing. *)
Lemma roll_loop_window_one (values : list F) (i : nat) (x : F) :
  nth_error values i = Some x ->
  nth_error (roll_loop A values 1 1) i = Some (if a_eqb A x x then x else a_nan A).
Proof.
  intros Hx.
  assert (Hi : (i < List.length values)%nat) by (apply nth_error_Some; congruence).
  rewrite roll_loop_nth by assumption. f_equal.
  unfold loop_state. rewrite loop_acc_succ. unfold roll_step. cbn [fst].
  set (N := Z.of_nat (List.length values)).
  assert (Hs : window_start 1 N (Z.of_nat i) = Z.of_nat i)
    by (unfold window_start, clip; lia).
  assert (He : window_end N (Z.of_nat i) = Z.of_nat i + 1)
    by (unfold window_end, clip; lia).
  replace ((Z.of_nat i =? 0) || (window_end N (Z.of_nat i - 1) <=? window_start 1 N (Z.of_nat i)))
    with true.
  2:{ symmetry. apply orb_true_iff. right. apply Z.leb_le.
      unfold window_end, window_start, clip. lia. }
  rewrite Hs, He. unfold add_range.
  rewrite range_cons by lia. rewrite range_empty by lia. cbn [fold_left].
  rewrite (value_at_nth_error values i x Hx).
  unfold add_mean, calc_mean. destruct (a_eqb A x x) eqn:Hobs.
  - cbn [nobs num_consecutive_same_value prev_value fresh_state]. rewrite Hobs. reflexivity.
  - reflexivity.
Qed.

End AggregationProperties.

(** ** Floats *)

Lemma SFcompare_refl (x : SpecFloat.spec_float) :
  SpecFloat.SFcompare x x = Some Eq \/ SpecFloat.SFcompare x x = None.
Proof.
  destruct x as [s|s| |s m e]; cbn.
  - now left.
  - destruct s; now left.
  - now right.
  - left. rewrite Z.compare_refl.
    assert (Hm : Pos.compare_cont Eq m m = Eq) by apply Pos.compare_cont_refl.
    change (PosDef.Pos.compare_cont Eq m m) with (Pos.compare_cont Eq m m).
    rewrite Hm. now destruct s.
Qed.

(** No float is greater than itself. *)
Lemma float_gt_irrefl (c : float) : float_gt c c = false.
Proof.
  unfold float_gt. rewrite FloatAxioms.ltb_spec. unfold SpecFloat.SFltb.
  now destruct (SFcompare_refl (FloatOps.Prim2SF c)) as [-> | ->].
Qed.

(** Nothing is greater than a missing value. *)
Lemma float_gt_missing (c : float) : float_gt c NaN = false.
Proof.
  unfold float_gt, NaN. rewrite FloatAxioms.ltb_spec. reflexivity.
Qed.


(** An unusable close is no observation once the values are prepared. *)
Lemma prep_unusable (c : float) :
  a_eqb binary64 (prep_value binary64 c) (prep_value binary64 c) = negb (unusable c).
Proof.
  unfold unusable, prep_value. cbn [a_eqb a_isinf a_nan binary64].
  destruct (is_infinity c).
  - rewrite orb_true_r. reflexivity.
  - rewrite orb_false_r. unfold is_nan. now rewrite negb_involutive.
Qed.

Lemma prep_values_length {F} (A : arithmetic F) (values : list F) :
  List.length (prep_values A values) = List.length values.
Proof. apply length_map. Qed.


(** ** The rolling mean of a float column *)

Lemma roll_mean_length (values : list float) (w minp : Z) :
  List.length (roll_mean values w minp) = List.length values.
Proof.
  unfold roll_mean, roll_mean_in. now rewrite roll_loop_length, prep_values_length.
Qed.

Lemma roll_mean_undefined (values : list float) (w : Z) (i : nat) :
  0 <= w -> (i < List.length values)%nat -> Z.of_nat i < w - 1 \/ w = 0 ->
  nth_error (roll_mean values w w) i = Some NaN.
Proof.
  intros Hw Hi Hshort. unfold roll_mean, roll_mean_in.
  apply (roll_loop_undefined binary64); [assumption | | assumption].
  now rewrite prep_values_length.
Qed.


Lemma roll_mean_window_one (values : list float) (i : nat) (c : float) :
  nth_error values i = Some c ->
  nth_error (roll_mean values 1 1) i = Some (if unusable c then NaN else c).
Proof.
  intros Hc. unfold roll_mean, roll_mean_in.
  rewrite (roll_loop_window_one binary64 _ i (prep_value binary64 c)).
  - rewrite prep_unusable. f_equal. unfold unusable, prep_value.
    cbn [a_isinf a_nan binary64]. destruct (is_infinity c).
    + now rewrite orb_true_r.
    + rewrite orb_false_r. now destruct (is_nan c).
  - unfold prep_values. rewrite nth_error_map, Hc. reflexivity.
Qed.

(** ** The rolling mean in exact arithmetic *)






















(** ** The signal *)

Lemma zip_with_length {A B C} (f : A -> B -> C) (l : list A) (m : list B) :
  List.length l = List.length m -> List.length (zip_with f l m) = List.length l.
Proof.
  revert m. induction l as [|a l IH]; intros [|b m] H; cbn in *; try congruence.
  f_equal. apply IH. congruence.
Qed.

Lemma zip_with_nth_error {A B C} (f : A -> B -> C) (l : list A) (m : list B)
    (i : nat) (a : A) (b : B) :
  nth_error l i = Some a -> nth_error m i = Some b ->
  nth_error (zip_with f l m) i = Some (f a b).
Proof.
  revert m i. induction l as [|x l IH]; intros [|y m] [|i] Ha Hb; cbn in *;
    try discriminate.
  - congruence.
  - now apply IH.
Qed.

Lemma signal_of_length (close : list float) (w : Z) :
  List.length (signal_of close w) = List.length close.
Proof.
  unfold signal_of. rewrite length_map.
  apply zip_with_length. now rewrite roll_mean_length.
Qed.

(** ** Columns *)

Lemma find_column_set_same (name : string) (col : series) (cols : list (string * series)) :
  find_column name (set_column name col cols) = Some col.
Proof.
  induction cols as [|[n c] cols IH]; cbn.
  - now rewrite String.eqb_refl.
  - destruct (String.eqb name n) eqn:E; cbn; rewrite E; [reflexivity | exact IH].
Qed.

Lemma find_column_set_other (name other : string) (col : series)
    (cols : list (string * series)) :
  String.eqb name other = false ->
  find_column name (set_column other col cols) = find_column name cols.
Proof.
  intros Hne. induction cols as [|[n c] cols IH]; cbn.
  - now rewrite Hne.
  - destruct (String.eqb other n) eqn:E; cbn.
    + apply String.eqb_eq in E. subst n. now rewrite Hne.
    + now rewrite IH.
Qed.

(** ** Faults of the library calls are ordinary exceptions *)

Lemma catchable_df_getitem (df : DataFrame) (name : string) : catchable (df_getitem df name).
Proof. unfold df_getitem. now destruct (find_column name (columns df)). Qed.

Lemma catchable_rolling (s : series) (window : pyval) : catchable (rolling s window).
Proof. unfold rolling. destruct window; cbn; trivial. now destruct (z <? 0). Qed.

Lemma catchable_rolling_mean (r : series * Z) : catchable (rolling_mean r).
Proof.
  destruct r as [s w]. unfold rolling_mean.
  destruct (to_float64 s); [|exact eq_refl]. now destruct (2 ^ 63 <=? w).
Qed.

Lemma catchable_series_gt (a b : series) : catchable (series_gt a b).
Proof.
  unfold series_gt. destruct (to_float64 a) as [x|]; [|exact eq_refl].
  destruct (to_float64 b) as [y|]; [|exact eq_refl].
  now destruct (List.length x =? List.length y)%nat.
Qed.

Lemma catchable_series_mean (s : series) : catchable (series_mean s).
Proof. now destruct s. Qed.

Lemma catchable_py_getitem (v : pyval) (key : string) : catchable (py_getitem v key).
Proof. destruct v; cbn; trivial. now destruct (dict_get key pairs). Qed.

Lemma catchable_check_keys (keys : list string) (cfg : pyval) :
  catchable (check_keys keys cfg).
Proof.
  induction keys as [|k keys IH]; cbn; [exact I|].
  destruct (py_in k cfg) as [present|e] eqn:Hin; cbn.
  - now destruct present.
  - destruct cfg; cbn in Hin; inversion Hin; reflexivity.
Qed.

(** ** The signal block of [main] *)

Lemma writes_to_app (path : string) (l m : list event) :
  writes_to path (l ++ m) = writes_to path l ++ writes_to path m.
Proof.
  induction l as [|ev l IH]; cbn; [reflexivity|].
  destruct ev; try exact IH. destruct (String.eqb path0 path); cbn; now rewrite IH.
Qed.

Ltac step :=
  match goal with
  | |- context [match ?r with Return _ => _ | Raise _ => _ end] =>
      let E := fresh "E" in destruct r eqn:E; cbn
  end.

Create HintDb catchable.
#[local] Hint Resolve catchable_df_getitem catchable_rolling catchable_rolling_mean
  catchable_series_gt catchable_series_mean
  catchable_py_getitem catchable_check_keys : catchable.

Ltac caught :=
  match goal with
  | E : ?r = Raise ?e |- is_Exception ?e = true =>
      let H := fresh in
      assert (H : catchable r) by auto with catchable;
      rewrite E in H; exact H
  | |- catchable _ => auto with catchable
  end.

(** Whatever the block does, it leaves [config] and the output file alone,
    it only raises ordinary exceptions, and what it returns does not depend
    on the state it starts from. *)
Lemma compute_signal_frame (df : DataFrame) (window : pyval) (st : state) :
  config_var (snd (compute_signal df window st)) = config_var st
  /\ (forall path, writes_to path (effects (snd (compute_signal df window st)))
                   = writes_to path (effects st))
  /\ catchable (fst (compute_signal df window st))
  /\ fst (compute_signal df window st) = signal_block_of df window.
Proof.
  unfold signal_block_of, compute_signal, bind, lift, emit, ret. cbn.
  repeat step;
    repeat split; try reflexivity; cbn;
    try (intros path; rewrite ?writes_to_app; cbn; now rewrite ?app_nil_r).
  all: try exact I.
  all: caught.
Qed.

Lemma compute_signal_numeric (df : DataFrame) (s : series) (close : list float)
    (w : Z) (st : state) :
  find_column "close" (columns df) = Some s -> to_float64 s = Some close ->
  0 <= w < 2 ^ 63 ->
  compute_signal df (PyInt w) st
  = (Return (df_setitem (df_setitem df "rolling_mean" (Float64 (roll_mean close w w)))
               "signal" (Int64 (signal_of close w)),
             mean_int (signal_of close w)),
     mkSt (effects st ++ [PrintPreview (head 10 s) (head 10 (Float64 (roll_mean close w w)));
                          Log INFO (RollingMeanCalculated (PyInt w));
                          Log INFO SignalsGenerated])
          (config_var st)).
Proof.
  intros Hfind Hnum [Hw Hbig].
  unfold compute_signal, bind, lift, emit, ret, df_getitem, rolling, rolling_mean.
  rewrite Hfind. replace (w <? 0) with false by (symmetry; apply Z.ltb_ge; lia).
  cbn [fst snd]. rewrite Hnum.
  replace (2 ^ 63 <=? w) with false by (symmetry; apply Z.leb_gt; lia).
  cbn [df_setitem columns].
  rewrite !find_column_set_same.
  rewrite !(find_column_set_other "close" "rolling_mean") by reflexivity.
  rewrite Hfind. cbn [effects config_var].
  unfold series_gt. rewrite Hnum. cbn [to_float64].
  rewrite roll_mean_length. rewrite Nat.eqb_refl.
  cbn [astype_int]. rewrite find_column_set_same. cbn [series_mean effects config_var].
  unfold signal_of. rewrite <- !app_assoc. reflexivity.
Qed.

(** A block that returns was given an integer window that fits an int64
    and a numeric [close] column, and returns the table with the rolling
    mean and the signal of that column. *)
Lemma signal_block_inv (df table : DataFrame) (window : pyval) (rate : ratio) :
  signal_block_of df window = Return (table, rate) ->
  exists s close w,
    window = PyInt w /\ 0 <= w < 2 ^ 63
    /\ find_column "close" (columns df) = Some s
    /\ to_float64 s = Some close
    /\ table = df_setitem (df_setitem df "rolling_mean" (Float64 (roll_mean close w w)))
                 "signal" (Int64 (signal_of close w))
    /\ rate = mean_int (signal_of close w).
Proof.
  intros Hrate.
  assert (Hs : exists s, find_column "close" (columns df) = Some s).
  { revert Hrate. unfold signal_block_of, compute_signal, bind, lift, df_getitem.
    destruct (find_column "close" (columns df)) as [s|]; [eauto | discriminate]. }
  destruct Hs as [s Hfind].
  assert (Hw : exists w, window = PyInt w /\ 0 <= w).
  { revert Hrate. unfold signal_block_of, compute_signal, bind, lift, df_getitem, rolling.
    rewrite Hfind. destruct window; try discriminate.
    destruct (z <? 0) eqn:Hz; [discriminate|]. apply Z.ltb_ge in Hz. eauto. }
  destruct Hw as (w & -> & Hw).
  assert (Hc : exists close, to_float64 s = Some close /\ w < 2 ^ 63).
  { revert Hrate.
    unfold signal_block_of, compute_signal, bind, lift, df_getitem, rolling, rolling_mean.
    rewrite Hfind. replace (w <? 0) with false by (symmetry; apply Z.ltb_ge; lia).
    cbn [fst snd]. destruct (to_float64 s) as [close|]; [|discriminate].
    destruct (2 ^ 63 <=? w) eqn:Hbig; [discriminate|]. apply Z.leb_gt in Hbig. eauto. }
  destruct Hc as (close & Hnum & Hbig).
  exists s, close, w.
  unfold signal_block_of in Hrate.
  rewrite (compute_signal_numeric df s close w _ Hfind Hnum (conj Hw Hbig)) in Hrate.
  cbn [fst] in Hrate. injection Hrate as <- <-.
  repeat split; assumption.
Qed.

Lemma signal_rate_of_raise (df : DataFrame) (window : pyval) (e : exn) :
  signal_rate_of df window = Raise e <-> signal_block_of df window = Raise e.
Proof.
  unfold signal_rate_of. destruct (signal_block_of df window) as [computed|e']; cbn.
  - split; discriminate.
  - split; intros [= ->]; reflexivity.
Qed.

Lemma signal_rate_of_return (df : DataFrame) (window : pyval) (rate : ratio) :
  signal_rate_of df window = Return rate <->
  exists table, signal_block_of df window = Return (table, rate).
Proof.
  unfold signal_rate_of. destruct (signal_block_of df window) as [[table r]|e]; cbn.
  - split; [intros [= <-]; eauto | intros [t [= _ <-]]; reflexivity].
  - split; [discriminate | intros [t H]; discriminate].
Qed.

(** ** The rolling mean and the signal of the job *)

Lemma table_columns (df : DataFrame) (s rm signal : series) :
  find_column "close" (columns df) = Some s ->
  let table := df_setitem (df_setitem df "rolling_mean" rm) "signal" signal in
  df_getitem table "close" = Return s
  /\ df_getitem table "rolling_mean" = Return rm
  /\ df_getitem table "signal" = Return signal.
Proof.
  intros Hfind table. subst table. unfold df_getitem, df_setitem. cbn [columns].
  rewrite find_column_set_same.
  rewrite (find_column_set_other "close" "signal") by reflexivity.
  rewrite (find_column_set_other "rolling_mean" "signal") by reflexivity.
  rewrite find_column_set_same.
  rewrite (find_column_set_other "close" "rolling_mean") by reflexivity.
  rewrite Hfind. repeat split.
Qed.






(** ** The metric *)

Lemma signal_of_binary (close : list float) (w : Z) :
  Forall (fun z => z = 0 \/ z = 1) (signal_of close w).
Proof.
  unfold signal_of. apply Forall_map, Forall_forall. intros b _.
  destruct b; cbn; auto.
Qed.

Lemma Zsum_count_ones (signal : list Z) :
  Forall (fun z => z = 0 \/ z = 1) signal -> Zsum signal = Z.of_nat (count_ones signal).
Proof.
  unfold count_ones. induction 1 as [|z l [-> | ->] _ IH]; cbn [Zsum fold_right count_occ].
  - reflexivity.
  - fold (Zsum l). destruct (Z.eq_dec 0 1); [discriminate | lia].
  - fold (Zsum l). destruct (Z.eq_dec 1 1); [lia | contradiction].
Qed.

Lemma count_ones_le (signal : list Z) : (count_ones signal <= List.length signal)%nat.
Proof. apply count_occ_bound. Qed.

Lemma mean_int_binary (signal : list Z) :
  signal <> [] -> Forall (fun z => z = 0 \/ z = 1) signal ->
  exists rate,
    mean_int signal = Some rate
    /\ (rate == inject_Z (Z.of_nat (count_ones signal))
               / inject_Z (Z.of_nat (List.length signal)))%Q
    /\ (0 <= rate <= 1)%Q.
Proof.
  intros Hne Hbin. destruct signal as [|z l] eqn:Hsig; [contradiction|].
  rewrite <- Hsig in *. clear Hne.
  assert (Hlen : (0 < List.length signal)%nat) by (rewrite Hsig; cbn; lia).
  exists (inject_Z (Zsum signal) / inject_Z (Z.of_nat (List.length signal)))%Q.
  split; [now rewrite Hsig | split].
  - now rewrite (Zsum_count_ones signal Hbin).
  - rewrite (Zsum_count_ones signal Hbin).
    pose proof (count_ones_le signal) as Hle.
    assert (Hpos : (0 < inject_Z (Z.of_nat (List.length signal)))%Q).
    { change 0%Q with (inject_Z 0). rewrite <- Zlt_Qlt. lia. }
    split.
    + apply Qle_shift_div_l; [assumption|]. rewrite Qmult_0_l.
      change 0%Q with (inject_Z 0). rewrite <- Zle_Qle. lia.
    + apply Qle_shift_div_r; [assumption|]. rewrite Qmult_1_l.
      rewrite <- Zle_Qle. lia.
Qed.

(** ** Rounding *)

Lemma round_half_even_near (q : Q) :
  (Qabs (inject_Z (round_half_even q) - q) <= 1 # 2)%Q.
Proof.
  unfold round_half_even.
  pose proof (Qfloor_le q) as Hlo. pose proof (Qlt_floor q) as Hhi.
  rewrite inject_Z_plus in Hhi. change (inject_Z 1) with 1%Q in *.
  set (f := Qfloor q) in *.
  apply Qabs_Qle_condition.
  destruct (q - inject_Z f ?= 1 # 2)%Q eqn:Hcmp.
  - apply Qeq_alt in Hcmp.
    destruct (Z.even f); rewrite ?inject_Z_plus; change (inject_Z 1) with 1%Q;
      split; lra.
  - apply Qlt_alt in Hcmp. split; lra.
  - apply Qgt_alt in Hcmp. rewrite inject_Z_plus. change (inject_Z 1) with 1%Q.
    split; lra.
Qed.

Lemma round_half_even_range (q : Q) (lo hi : Z) :
  (inject_Z lo <= q <= inject_Z hi)%Q -> lo <= round_half_even q <= hi.
Proof.
  intros [Hlo Hhi].
  pose proof (round_half_even_near q) as Hnear.
  apply Qabs_Qle_condition in Hnear. destruct Hnear as [Hn1 Hn2].
  set (z := round_half_even q) in *.
  split.
  - destruct (Z_le_gt_dec lo z) as [|Hgt]; [assumption|].
    assert (Hz : (inject_Z (z + 1) <= inject_Z lo)%Q) by (rewrite <- Zle_Qle; lia).
    rewrite inject_Z_plus in Hz. change (inject_Z 1) with 1%Q in Hz. lra.
  - destruct (Z_le_gt_dec z hi) as [|Hgt]; [assumption|].
    assert (Hz : (inject_Z (hi + 1) <= inject_Z z)%Q) by (rewrite <- Zle_Qle; lia).
    rewrite inject_Z_plus in Hz. change (inject_Z 1) with 1%Q in Hz. lra.
Qed.

(** The value of the report for a rate between 0 and 1: a number of ten
    thousandths, between 0 and 1, at most half a ten thousandth from the rate. *)
Lemma round4_spec (rate : Q) :
  (0 <= rate <= 1)%Q ->
  exists n : Z,
    round4 (Some rate) = Some (inject_Z n / 10000)%Q
    /\ 0 <= n <= 10000
    /\ (Qabs (inject_Z n / 10000 - rate) <= 1 # 20000)%Q.
Proof.
  intros [H0 H1]. exists (round_half_even (rate * 10000)). split; [reflexivity | split].
  - apply round_half_even_range. unfold inject_Z. split; lra.
  - pose proof (round_half_even_near (rate * 10000)) as Hnear.
    apply Qabs_Qle_condition in Hnear. destruct Hnear as [Hn1 Hn2].
    apply Qabs_Qle_condition.
    set (z := inject_Z (round_half_even (rate * 10000))) in *.
    assert (Hdiv : (z / 10000 == z * (1 # 10000))%Q) by (field).
    rewrite Hdiv. split; lra.
Qed.

(** The double held for a rate of zero is zero. *)
Lemma nearest_double_zero (q : Q) : (q == 0)%Q -> nearest_double q = 0%Q.
Proof.
  intros Hq. unfold Qeq in Hq. cbn in Hq. unfold nearest_double.
  replace (Qnum q) with 0 by lia. reflexivity.
Qed.

Lemma binary_exponent_fraction (a b : positive) :
  Z.pos a <= Z.pos b -> binary_exponent a b <= 0.
Proof.
  intros Hab. unfold binary_exponent.
  pose proof (Z.log2_le_mono _ _ Hab) as Hlog.
  set (d := Z.log2 (Z.pos a) - Z.log2 (Z.pos b)) in *.
  destruct (if 0 <=? d then _ else _); lia.
Qed.

(** The double held for a rate between 0 and 1 lies between 0 and 1, within
    [2 ^ -53] of the rate. *)
Lemma nearest_double_fraction (q : Q) :
  (0 <= q <= 1)%Q ->
  (0 <= nearest_double q <= 1)%Q
  /\ (Qabs (nearest_double q - q) <= 1 # 9007199254740992)%Q.
Proof.
  intros [H0 H1]. destruct q as [n d]. unfold nearest_double. cbn [Qnum Qden].
  destruct n as [|a|a].
  - assert (Hz : (0 # d == 0)%Q) by reflexivity.
    split; [split; lra|]. rewrite Hz. apply Qabs_Qle_condition. split; lra.
  - assert (Hab : Z.pos a <= Z.pos d) by (unfold Qle in H1; cbn in H1; lia).
    pose proof (binary_exponent_fraction a d Hab) as He.
    unfold nearest_double_pos. set (e := 52 - binary_exponent a d) in *.
    assert (He' : 0 <= e) by lia. apply Z.leb_le in He' as Hleb. rewrite Hleb.
    assert (Hpow : 2 ^ 52 <= 2 ^ e) by (apply Z.pow_le_mono_r; lia).
    set (P := inject_Z (2 ^ e)).
    assert (HP : (4503599627370496 <= P)%Q).
    { unfold P. change 4503599627370496%Q with (inject_Z (2 ^ 52)).
      now rewrite <- Zle_Qle. }
    set (q := Z.pos a # d) in *. clearbody q.
    assert (Hs : (inject_Z 0 <= q * P <= inject_Z (2 ^ e))%Q).
    { fold P. change (inject_Z 0) with 0%Q. clearbody P.
      split; [apply Qmult_le_0_compat; lra|].
      apply Qle_trans with (1 * P)%Q; [apply Qmult_le_compat_r; lra | lra]. }
    pose proof (round_half_even_range _ _ _ Hs) as Hm.
    pose proof (round_half_even_near (q * P)) as Hnear.
    apply Qabs_Qle_condition in Hnear. destruct Hnear as [Hn1 Hn2].
    set (m := inject_Z (round_half_even (q * P))) in *.
    assert (Hm0 : (0 <= m)%Q)
      by (unfold m; change 0%Q with (inject_Z 0); rewrite <- Zle_Qle; lia).
    assert (Hm1 : (m <= P)%Q)
      by (unfold m; unfold P in *; rewrite <- Zle_Qle; lia).
    clearbody m. clearbody P.
    set (u := (/ P)%Q).
    assert (Hu0 : (0 < u)%Q) by (apply Qinv_lt_0_compat; lra).
    assert (HPu : (P * u == 1)%Q) by (unfold u; field; lra).
    assert (Hdiv : (m / P == m * u)%Q) by reflexivity.
    clearbody u.
    assert (Hu1 : (u <= 1 # 4503599627370496)%Q).
    { assert (Hx : (4503599627370496 * u <= P * u)%Q)
        by (apply Qmult_le_compat_r; lra).
      lra. }
    rewrite Hdiv.
    assert (Hq : (q == (q * P) * u)%Q) by (rewrite <- Qmult_assoc, HPu; ring).
    split; [split|].
    + apply Qmult_le_0_compat; lra.
    + rewrite <- HPu. apply Qmult_le_compat_r; lra.
    + apply Qabs_Qle_condition.
      assert (Hd : (m * u - q == (m - q * P) * u)%Q) by (rewrite Hq at 1; ring).
      rewrite Hd.
      assert (Ha : ((m - q * P) * u <= (1 # 2) * u)%Q)
        by (apply Qmult_le_compat_r; lra).
      assert (Hb : ((- (1 # 2)) * u <= (m - q * P) * u)%Q)
        by (apply Qmult_le_compat_r; lra).
      split; lra.
  - exfalso. unfold Qle in H0. cbn in H0. lia.
Qed.

(** The value of the report for a rate between 0 and 1: the double held for
    the rate, rounded to a number of ten thousandths. *)
Lemma report_value_spec (rate : Q) :
  (0 <= rate <= 1)%Q ->
  exists (held : Q) (n : Z),
    py_float (Some rate) = Some held
    /\ (0 <= held <= 1)%Q
    /\ (Qabs (held - rate) <= 1 # 9007199254740992)%Q
    /\ round4 (py_float (Some rate)) = Some (inject_Z n / 10000)%Q
    /\ 0 <= n <= 10000
    /\ (Qabs (inject_Z n / 10000 - held) <= 1 # 20000)%Q.
Proof.
  intros Hrate. destruct (nearest_double_fraction rate Hrate) as [Hheld Hnear].
  destruct (round4_spec (nearest_double rate) Hheld) as (n & Hround & Hn & Hband).
  exists (nearest_double rate), n. repeat split; try assumption; try apply Hheld; lia.
Qed.

(** ** The handler and the body of [main] *)

Section JobProperties.

Variable lib : libraries.

Lemma catchable_load_config (files : filesystem) (path : string) :
  catchable (load_config lib files path).
Proof.
  unfold load_config. destruct (files path) as [text|]; [|exact eq_refl].
  destruct (safe_load lib text) as [cfg|msg]; [|exact eq_refl].
  pose proof (catchable_check_keys required_keys cfg) as H.
  now destruct (check_keys required_keys cfg).
Qed.

Lemma catchable_load_data (files : filesystem) (path : string) :
  catchable (load_data lib files path).
Proof.
  unfold load_data. destruct (files path) as [text|]; [|exact eq_refl].
  destruct (read_csv lib text) as [df|msg]; [|exact eq_refl].
  destruct (df_empty df); [exact eq_refl|].
  now destruct (negb (has_column "close" df)).
Qed.

Lemma catchable_seed_generator (seed : pyval) : catchable (seed_generator lib seed).
Proof. unfold seed_generator. now destruct (np_random_seed lib seed). Qed.

Lemma handler_exit_code (args : arguments) (w : world) (e : exn) (st : state) :
  exit_code (fst (handler args w e st)) = 1.
Proof.
  unfold handler, bind, locals_config, write_json, sys_exit, lift, ret, emit.
  destruct (config_var st) as [cfg|]; cbn.
  - destruct (py_getitem cfg "version") as [v|e'] eqn:Hv; cbn.
    + destruct (writable w (output args)); cbn.
      * destruct (json_serializable v); reflexivity.
      * reflexivity.
    + pose proof (catchable_py_getitem cfg "version") as Hc. rewrite Hv in Hc.
      now destruct e'.
  - destruct (writable w (output args)); reflexivity.
Qed.

Lemma handler_unbound (args : arguments) (w : world) (e : exn) (st : state) :
  config_var st = None ->
  handler args w e st
  = if writable w (output args)
    then (Raise (SystemExit 1),
          mkSt (effects st ++ [WriteFile (output args) (error_doc (PyStr "unknown") e) true;
                               Log ERROR (ErrorOccurred (str_exn e));
                               Log INFO (JobFailed (failed_ms w));
                               PrintReport (error_doc (PyStr "unknown") e)]) None)
    else (Raise (OSError "cannot open the output file"), st).
Proof.
  intros Hc. unfold handler, bind, locals_config, write_json, sys_exit, lift, ret, emit.
  rewrite Hc. destruct (writable w (output args)); cbn.
  - rewrite <- !app_assoc, Hc. reflexivity.
  - reflexivity.
Qed.

Lemma handler_bound (args : arguments) (w : world) (e : exn) (st : state)
    (cfg version : pyval) :
  config_var st = Some cfg -> py_getitem cfg "version" = Return version ->
  handler args w e st
  = if writable w (output args)
    then if json_serializable version
         then (Raise (SystemExit 1),
               mkSt (effects st ++ [WriteFile (output args) (error_doc version e) true;
                                    Log ERROR (ErrorOccurred (str_exn e));
                                    Log INFO (JobFailed (failed_ms w));
                                    PrintReport (error_doc version e)]) (Some cfg))
         else (Raise (TypeError "Object of type date is not JSON serializable"),
               mkSt (effects st ++ [WriteFile (output args) (error_doc version e) false])
                    (Some cfg))
    else (Raise (OSError "cannot open the output file"), st).
Proof.
  intros Hc Hv. unfold handler, bind, locals_config, write_json, sys_exit, lift, ret, emit.
  rewrite Hc. cbn. rewrite Hv. cbn.
  destruct (writable w (output args)); cbn; [|reflexivity].
  destruct (json_serializable version); cbn; rewrite ?Hc.
  - rewrite <- !app_assoc. reflexivity.
  - reflexivity.
Qed.

Lemma emit_success_run (args : arguments) (w : world) (version seed : pyval)
    (rows : nat) (rate : ratio) (st : state) :
  emit_success args w version seed rows rate st
  = if writable w (output args)
    then if json_serializable version && json_serializable seed
         then (Raise (SystemExit 0),
               mkSt (effects st ++ [WriteFile (output args)
                                      (success_doc w version seed rows rate) true;
                                    Log INFO (Metrics rate rows);
                                    Log INFO (JobCompleted (elapsed_ms w));
                                    PrintReport (success_doc w version seed rows rate)])
                    (config_var st))
         else (Raise (TypeError "Object of type date is not JSON serializable"),
               mkSt (effects st ++ [WriteFile (output args)
                                      (success_doc w version seed rows rate) false])
                    (config_var st))
    else (Raise (OSError "cannot open the output file"), st).
Proof.
  unfold emit_success, bind, write_json, sys_exit, lift, emit, success_doc.
  destruct (writable w (output args)); cbn; [|reflexivity].
  destruct (json_serializable version && json_serializable seed); cbn.
  - rewrite <- !app_assoc. reflexivity.
  - reflexivity.
Qed.

(** A run either goes through the whole body, or ends in the handler. *)
Lemma main_cases (args : arguments) (w : world) :
  (exists e st, main lib args w = handler args w e st)
  \/ (exists cfg seed window version df table rate st,
        load_config lib (fs w) (config args) = Return cfg
        /\ py_getitem cfg "seed" = Return seed
        /\ py_getitem cfg "window" = Return window
        /\ py_getitem cfg "version" = Return version
        /\ seed_generator lib seed = Return tt
        /\ load_data lib (fs w) (input args) = Return df
        /\ compute_signal df window (loaded_state cfg seed window version (index_len df))
           = (Return (table, rate), st)
        /\ writable w (output args) = true
        /\ json_serializable version && json_serializable seed = true
        /\ main lib args w
           = (Raise (SystemExit 0),
              mkSt (effects st ++ [WriteFile (output args)
                                     (success_doc w version seed (index_len df) rate) true;
                                   Log INFO (Metrics rate (index_len df));
                                   Log INFO (JobCompleted (elapsed_ms w));
                                   PrintReport (success_doc w version seed (index_len df) rate)])
                   (config_var st))).
Proof.
  unfold main, try_except, try_body, bind, lift, emit, assign_config.
  cbn [effects config_var app fst snd].
  destruct (load_config lib (fs w) (config args)) as [cfg|e] eqn:Hcfg.
  2:{ left. pose proof (catchable_load_config (fs w) (config args)) as Hc.
      rewrite Hcfg in Hc. cbn in Hc. rewrite Hc. eauto. }
  destruct (py_getitem cfg "seed") as [seed|e] eqn:Hseed.
  2:{ left. pose proof (catchable_py_getitem cfg "seed") as Hc.
      rewrite Hseed in Hc. cbn in Hc. rewrite Hc. eauto. }
  destruct (py_getitem cfg "window") as [window|e] eqn:Hwin.
  2:{ left. pose proof (catchable_py_getitem cfg "window") as Hc.
      rewrite Hwin in Hc. cbn in Hc. rewrite Hc. eauto. }
  destruct (py_getitem cfg "version") as [version|e] eqn:Hver.
  2:{ left. pose proof (catchable_py_getitem cfg "version") as Hc.
      rewrite Hver in Hc. cbn in Hc. rewrite Hc. eauto. }
  destruct (seed_generator lib seed) as [[]|e] eqn:Hgen.
  2:{ left. pose proof (catchable_seed_generator seed) as Hc.
      rewrite Hgen in Hc. cbn in Hc. rewrite Hc. eauto. }
  destruct (load_data lib (fs w) (input args)) as [df|e] eqn:Hdata.
  2:{ left. pose proof (catchable_load_data (fs w) (input args)) as Hc.
      rewrite Hdata in Hc. cbn in Hc. rewrite Hc. eauto. }
  cbn [effects config_var app].
  fold (loaded_state cfg seed window version (index_len df)).
  destruct (compute_signal df window (loaded_state cfg seed window version (index_len df)))
    as [[[table rate]|e] st] eqn:Hsig.
  2:{ left.
      destruct (compute_signal_frame df window
                  (loaded_state cfg seed window version (index_len df))) as (_ & _ & Hc & _).
      rewrite Hsig in Hc. cbn in Hc. rewrite Hc. eauto. }
  cbn [snd]. rewrite emit_success_run.
  destruct (writable w (output args)) eqn:Hwr; [|left; cbn [is_Exception]; eauto].
  destruct (json_serializable version && json_serializable seed) eqn:Hjs;
    [|left; cbn [is_Exception]; eauto].
  right. exists cfg, seed, window, version, df, table, rate, st.
  repeat split; reflexivity || assumption.
Qed.

(** *** Runs that end in the handler *)

Lemma main_config_fault (args : arguments) (w : world) (e : exn) :
  load_config lib (fs w) (config args) = Raise e ->
  main lib args w = handler args w e (mkSt [Log INFO JobStarted] None).
Proof.
  intros Hcfg.
  unfold main, try_except, try_body, bind, lift, emit.
  cbn [effects config_var app fst snd]. rewrite Hcfg.
  pose proof (catchable_load_config (fs w) (config args)) as Hc.
  rewrite Hcfg in Hc. cbn in Hc. now rewrite Hc.
Qed.

Lemma main_subscript_fault (args : arguments) (w : world) (cfg : pyval) (e : exn) :
  load_config lib (fs w) (config args) = Return cfg ->
  py_getitem cfg "seed" = Raise e ->
  main lib args w = handler args w e (mkSt [Log INFO JobStarted] (Some cfg)).
Proof.
  intros Hcfg Hseed.
  unfold main, try_except, try_body, bind, lift, emit, assign_config.
  cbn [effects config_var app fst snd]. rewrite Hcfg, Hseed.
  pose proof (catchable_py_getitem cfg "seed") as Hc.
  rewrite Hseed in Hc. cbn in Hc. now rewrite Hc.
Qed.

Lemma main_data_fault (args : arguments) (w : world)
    (cfg seed window version : pyval) (e : exn) :
  configured lib args w cfg seed window version ->
  load_data lib (fs w) (input args) = Raise e ->
  main lib args w
  = handler args w e
      (mkSt [Log INFO JobStarted; Log INFO (ConfigLoaded seed window version)] (Some cfg)).
Proof.
  intros (Hcfg & Hseed & Hwin & Hver & Hgen) Hdata.
  unfold main, try_except, try_body, bind, lift, emit, assign_config.
  cbn [effects config_var app fst snd]. rewrite Hcfg, Hseed, Hwin, Hver, Hgen, Hdata.
  pose proof (catchable_load_data (fs w) (input args)) as Hc.
  rewrite Hdata in Hc. cbn in Hc. now rewrite Hc.
Qed.

Lemma main_loaded (args : arguments) (w : world)
    (cfg seed window version : pyval) (df : DataFrame) :
  configured lib args w cfg seed window version ->
  load_data lib (fs w) (input args) = Return df ->
  main lib args w
  = try_except
      (bind (compute_signal df window)
         (fun computed => emit_success args w version seed (index_len df) (snd computed)))
      (handler args w)
      (loaded_state cfg seed window version (index_len df)).
Proof.
  intros (Hcfg & Hseed & Hwin & Hver & Hgen) Hdata.
  unfold main, try_except, try_body, bind, lift, emit, assign_config.
  cbn [effects config_var app fst snd]. rewrite Hcfg, Hseed, Hwin, Hver, Hgen, Hdata.
  reflexivity.
Qed.

Lemma main_signal_fault (args : arguments) (w : world)
    (cfg seed window version : pyval) (df : DataFrame) (e : exn) :
  configured lib args w cfg seed window version ->
  load_data lib (fs w) (input args) = Return df ->
  signal_rate_of df window = Raise e ->
  exists st,
    main lib args w = handler args w e st
    /\ config_var st = Some cfg
    /\ writes_to (output args) (effects st) = [].
Proof.
  intros Hconf Hdata Hsig. rewrite (main_loaded args w cfg seed window version df Hconf Hdata).
  destruct (compute_signal_frame df window
              (loaded_state cfg seed window version (index_len df)))
    as (Hvar & Hwrites & Hcatch & Hval).
  unfold try_except, bind.
  destruct (compute_signal df window (loaded_state cfg seed window version (index_len df)))
    as [r st] eqn:Hrun.
  apply signal_rate_of_raise in Hsig.
  cbn [fst snd] in *. rewrite Hval, Hsig in *. cbn in Hcatch. rewrite Hcatch.
  exists st. repeat split; [exact Hvar | now rewrite Hwrites].
Qed.

Lemma main_success (args : arguments) (w : world)
    (cfg seed window version : pyval) (df : DataFrame) (rate : ratio) :
  configured lib args w cfg seed window version ->
  load_data lib (fs w) (input args) = Return df ->
  signal_rate_of df window = Return rate ->
  writable w (output args) = true ->
  json_serializable version && json_serializable seed = true ->
  fst (main lib args w) = Raise (SystemExit 0)
  /\ writes_to (output args) (effects (snd (main lib args w)))
     = [(success_doc w version seed (index_len df) rate, true)].
Proof.
  intros Hconf Hdata Hsig Hwr Hjs.
  rewrite (main_loaded args w cfg seed window version df Hconf Hdata).
  destruct (compute_signal_frame df window
              (loaded_state cfg seed window version (index_len df)))
    as (Hvar & Hwrites & Hcatch & Hval).
  unfold try_except, bind.
  destruct (compute_signal df window (loaded_state cfg seed window version (index_len df)))
    as [r st] eqn:Hrun.
  apply signal_rate_of_return in Hsig. destruct Hsig as [table Hsig].
  cbn [fst snd] in *. rewrite Hval, Hsig in *.
  rewrite emit_success_run, Hwr, Hjs. cbn [is_Exception fst snd effects].
  split; [reflexivity|].
  rewrite writes_to_app, Hwrites. cbn. now rewrite String.eqb_refl.
Qed.

(** What the handler leaves in the output file. *)
Lemma handler_writes (args : arguments) (w : world) (e : exn) (st : state) (version : pyval) :
  match config_var st with
  | Some cfg => py_getitem cfg "version" = Return version
  | None => version = PyStr "unknown"
  end ->
  writes_to (output args) (effects (snd (handler args w e st)))
  = writes_to (output args) (effects st)
    ++ (if writable w (output args)
        then [(error_doc version e, json_serializable version)]
        else []).
Proof.
  destruct (config_var st) as [cfg|] eqn:Hvar.
  - intros Hver. rewrite (handler_bound args w e st cfg version Hvar Hver).
    destruct (writable w (output args)); cbn; [|now rewrite app_nil_r].
    destruct (json_serializable version); cbn;
      rewrite writes_to_app; cbn; now rewrite String.eqb_refl.
  - intros ->. rewrite (handler_unbound args w e st Hvar).
    destruct (writable w (output args)); cbn; [|now rewrite app_nil_r].
    rewrite writes_to_app; cbn; now rewrite String.eqb_refl.
Qed.

End JobProperties.

(** ** The loaders *)

Section LoaderClaims.

Variable lib : libraries.

Lemma dict_has_key (key : string) (pairs : list (string * pyval)) :
  existsb (fun kv => String.eqb key (fst kv)) pairs = true <-> dict_get key pairs <> None.
Proof.
  induction pairs as [|[k v] pairs IH]; cbn.
  - split; [discriminate | congruence].
  - destruct (String.eqb key k); cbn; [split; [discriminate | reflexivity] | exact IH].
Qed.

(** X1.  For a document that is a mapping, the loader does what its contract
    says: it fails with the structure error exactly when one of the three
    keys is missing, and returns the mapping otherwise. *)
Lemma load_config_mapping (files : filesystem) (path text : string)
    (pairs : list (string * pyval)) :
  files path = Some text -> safe_load lib text = Parsed (PyDict pairs) ->
  (Forall (fun key => dict_get key pairs <> None) required_keys ->
     load_config lib files path = Return (PyDict pairs))
  /\ (~ Forall (fun key => dict_get key pairs <> None) required_keys ->
     load_config lib files path = Raise (ValueError "Invalid configuration file structure")).
Proof.
  intros Hfile Hdoc. unfold load_config. rewrite Hfile, Hdoc.
  pose proof (fun key => dict_has_key key pairs) as Hin.
  unfold required_keys. cbn [check_keys py_in rbind].
  destruct (existsb (fun kv => String.eqb "seed" (fst kv)) pairs) eqn:H1;
  destruct (existsb (fun kv => String.eqb "window" (fst kv)) pairs) eqn:H2;
  destruct (existsb (fun kv => String.eqb "version" (fst kv)) pairs) eqn:H3;
    cbn [negb]; split; intros HF; try reflexivity;
    try (exfalso; apply HF; repeat constructor; apply Hin; assumption);
    exfalso; inversion_clear HF as [|? ? Ha HF1]; inversion_clear HF1 as [|? ? Hb HF2];
    inversion_clear HF2 as [|? ? Hc _];
    apply Hin in Ha, Hb, Hc; congruence.
Qed.

(** C5, at the documents the loader mishandles.  A document that is not a
    mapping is not told apart from one that lacks a key: the empty document
    makes the membership test itself fail with a [TypeError], and a list or a
    string that contains the three names is returned as if it were a valid
    configuration. *)
Theorem load_config_non_mapping (files : filesystem) (path text : string) :
  files path = Some text ->
  (safe_load lib text = Parsed PyNone ->
     load_config lib files path = Raise (TypeError "argument of type 'NoneType' is not iterable"))
  /\ (safe_load lib text = Parsed (PyList [PyStr "seed"; PyStr "window"; PyStr "version"]) ->
     load_config lib files path
     = Return (PyList [PyStr "seed"; PyStr "window"; PyStr "version"]))
  /\ (safe_load lib text = Parsed (PyStr "seed window version") ->
     load_config lib files path = Return (PyStr "seed window version")).
Proof.
  intros Hfile. unfold load_config. rewrite Hfile.
  repeat split; intros ->; reflexivity.
Qed.

(** C10. A parsed table without rows is rejected as empty whether or not it
    has a [close] column; the missing column is only reported for a table
    that has rows. *)
Theorem empty_check_precedes_column_check (files : filesystem) (path text : string)
    (df : DataFrame) :
  files path = Some text -> read_csv lib text = Parsed df ->
  (index_len df = 0%nat ->
     load_data lib files path = Raise (ValueError "Input file is empty"))
  /\ (load_data lib files path = Raise (ValueError "Missing required column: close") ->
     (0 < index_len df)%nat /\ df_empty df = false /\ has_column "close" df = false).
Proof.
  intros Hfile Hdoc. unfold load_data. rewrite Hfile, Hdoc. split.
  - intros Hrows. unfold df_empty. now rewrite Hrows.
  - destruct (df_empty df) eqn:Hempty; [discriminate|].
    destruct (has_column "close" df) eqn:Hcol; [discriminate|].
    intros _. split; [|split; reflexivity].
    unfold df_empty in Hempty. apply orb_false_iff in Hempty.
    destruct Hempty as [Hrows _]. apply Nat.eqb_neq in Hrows. lia.
Qed.

Lemma load_data_inv (files : filesystem) (path : string) (df : DataFrame) :
  load_data lib files path = Return df ->
  exists text,
    files path = Some text /\ read_csv lib text = Parsed df
    /\ (0 < index_len df)%nat /\ has_column "close" df = true.
Proof.
  unfold load_data. destruct (files path) as [text|]; [|discriminate].
  destruct (read_csv lib text) as [d|] eqn:Hdoc; [|discriminate].
  destruct (df_empty d) eqn:Hempty; [discriminate|].
  destruct (has_column "close" d) eqn:Hcol; [|discriminate].
  intros [= <-]. exists text.
  split; [reflexivity | split; [assumption | split; [|assumption]]].
  unfold df_empty in Hempty. apply orb_false_iff in Hempty.
  destruct Hempty as [Hrows _]. apply Nat.eqb_neq in Hrows. lia.
Qed.

End LoaderClaims.

Lemma load_config_non_mapping_witness :
  load_config (bench_lib (Parsed PyNone) (Parsed bench_table)) bench_files "config.yaml"
  = Raise (TypeError "argument of type 'NoneType' is not iterable").
Proof.
  apply (proj1 (load_config_non_mapping (bench_lib (Parsed PyNone) (Parsed bench_table))
                  bench_files "config.yaml" "config" eq_refl)).
  reflexivity.
Defined.

Lemma empty_check_precedes_column_check_witness :
  load_data (bench_lib (Parsed PyNone) (Parsed (mkDataFrame 0 [("open", Float64 [])])))
    bench_files "data.csv"
  = Raise (ValueError "Input file is empty").
Proof.
  apply (proj1 (empty_check_precedes_column_check
                  (bench_lib (Parsed PyNone) (Parsed (mkDataFrame 0 [("open", Float64 [])])))
                  bench_files "data.csv" "table" (mkDataFrame 0 [("open", Float64 [])])
                  eq_refl eq_refl)).
  reflexivity.
Defined.

(** ** Windows that never fill *)

Lemma zip_with_gt_missing (close rm : list float) :
  Forall (eq NaN) rm -> Forall (eq false) (zip_with float_gt close rm).
Proof.
  intros Hrm. revert close. induction Hrm as [|r rm <- _ IH]; intros [|c close];
    cbn [zip_with]; try constructor.
  - now rewrite float_gt_missing.
  - apply IH.
Qed.

Lemma all_rows_missing (rm : list float) (n : nat) :
  List.length rm = n ->
  (forall i, (i < n)%nat -> nth_error rm i = Some NaN) -> Forall (eq NaN) rm.
Proof.
  intros Hlen Hall. apply Forall_forall. intros x Hin.
  destruct (In_nth_error rm x Hin) as [i Hi].
  assert (Hlt : (i < n)%nat) by (rewrite <- Hlen; apply nth_error_Some; congruence).
  rewrite (Hall i Hlt) in Hi. congruence.
Qed.

Lemma Zsum_zeros (signal : list Z) : Forall (eq 0) signal -> Zsum signal = 0.
Proof. induction 1 as [|z l <- _ IH]; cbn; [reflexivity | exact IH]. Qed.

(** When no row has a full window, every mean is missing, every signal is 0
    and so is the rate. *)
Lemma never_full_window (close : list float) (w : Z) :
  close <> [] -> 0 <= w -> Z.of_nat (List.length close) < w \/ w = 0 ->
  (forall i, (i < List.length close)%nat -> nth_error (roll_mean close w w) i = Some NaN)
  /\ Forall (eq 0) (signal_of close w)
  /\ exists rate, mean_int (signal_of close w) = Some rate /\ (rate == 0)%Q.
Proof.
  intros Hne Hw Hlong.
  assert (Hall : forall i, (i < List.length close)%nat ->
                           nth_error (roll_mean close w w) i = Some NaN).
  { intros i Hi. apply roll_mean_undefined; [assumption | assumption | lia]. }
  assert (Hzero : Forall (eq 0) (signal_of close w)).
  { unfold signal_of.
    pose proof (zip_with_gt_missing close (roll_mean close w w)
                  (all_rows_missing _ _ (roll_mean_length close w w) Hall)) as Hf.
    induction Hf as [|b l <- _ IH]; cbn; constructor; [reflexivity | exact IH]. }
  split; [exact Hall | split; [exact Hzero |]].
  pose proof (signal_of_length close w) as Hlen.
  unfold mean_int. rewrite (Zsum_zeros _ Hzero).
  destruct (signal_of close w) as [|z l] eqn:Hsig.
  - destruct close; [contradiction | discriminate].
  - eexists. split; [reflexivity|]. unfold Qdiv. ring.
Qed.

(** C3, as the code has it.  A negative window is refused when the rolling
    object is built, with a [ValueError] and before any arithmetic; a window
    of 0 is accepted: every rolling mean is missing, every signal is 0 and
    the rate is 0. *)
Theorem nonpositive_window (df : DataFrame) (s : series) (close : list float) (w : Z) :
  find_column "close" (columns df) = Some s -> to_float64 s = Some close ->
  close <> [] -> w <= 0 ->
  (w < 0 ->
     signal_rate_of df (PyInt w)
     = Raise (ValueError "window must be an integer 0 or greater"))
  /\ (w = 0 ->
     (forall i, (i < List.length close)%nat ->
        nth_error (roll_mean close w w) i = Some NaN)
     /\ Forall (eq 0) (signal_of close w)
     /\ exists rate, signal_rate_of df (PyInt w) = Return (Some rate) /\ (rate == 0)%Q).
Proof.
  intros Hfind Hnum Hne Hw. split.
  - intros Hneg.
    unfold signal_rate_of, signal_block_of, compute_signal, bind, lift, df_getitem, rolling.
    rewrite Hfind. apply Z.ltb_lt in Hneg. now rewrite Hneg.
  - intros ->.
    destruct (never_full_window close 0 Hne ltac:(lia) ltac:(now right))
      as (Hall & Hzero & rate & Hrate & Hr0).
    split; [exact Hall | split; [exact Hzero |]].
    exists rate. split; [|exact Hr0].
    unfold signal_rate_of, signal_block_of.
    rewrite (compute_signal_numeric df s close 0 _ Hfind Hnum ltac:(split; [lia | reflexivity])).
    cbn [fst snd rbind]. now rewrite Hrate.
Qed.

Lemma nonpositive_window_witness :
  signal_rate_of bench_table (PyInt (-1))
  = Raise (ValueError "window must be an integer 0 or greater").
Proof.
  apply (proj1 (nonpositive_window bench_table (Int64 [1; 2; 6])
                  [1; 2; 6]%float (-1)
                  eq_refl eq_refl ltac:(discriminate) ltac:(lia))).
  lia.
Defined.

(** The claim as the specification has it fails at window 0: on a table
    with a numeric [close] column the signal block returns a rate and raises
    nothing, and the job ends with code 0 and a success report of value 0. *)
Lemma window_zero_is_accepted :
  (exists rate, signal_rate_of bench_table (PyInt 0) = Return rate)
  /\ ~ (exists msg, signal_rate_of bench_table (PyInt 0) = Raise (ValueError msg))
  /\ run_exit_code (main (bench_lib (Parsed (bench_config (PyInt 0) (PyStr "v1")))
                            (Parsed bench_table)) bench_args bench_world) = 0
  /\ writes_to "metrics.json"
       (run_effects (main (bench_lib (Parsed (bench_config (PyInt 0) (PyStr "v1")))
                             (Parsed bench_table)) bench_args bench_world))
     = [(OnSuccess (mkSuccess (PyStr "v1") 3 "signal_rate" (Some (0 # 10000)) 1500
                      (PyInt 42) "success"), true)].
Proof.
  split; [|split; [|split]].
  - eexists. vm_compute. reflexivity.
  - intros [msg H]. vm_compute in H. discriminate.
  - vm_compute. reflexivity.
  - vm_compute. reflexivity.
Qed.

(** ** Runs *)

Lemma find_column_In (name : string) (cols : list (string * series)) (col : series) :
  find_column name cols = Some col -> In (name, col) cols.
Proof.
  induction cols as [|[n c] cols IH]; cbn; [discriminate|].
  destruct (String.eqb name n) eqn:E.
  - apply String.eqb_eq in E. intros [= ->]. left. now subst.
  - intros H. right. now apply IH.
Qed.

Lemma to_float64_length (s : series) (v : list float) :
  to_float64 s = Some v -> List.length v = series_len s.
Proof.
  destruct s; cbn; intros [= <-]; now rewrite ?length_map.
Qed.

Lemma close_column_length (df : DataFrame) (s : series) (close : list float) :
  well_formed df -> find_column "close" (columns df) = Some s ->
  to_float64 s = Some close -> List.length close = index_len df.
Proof.
  intros Hwf Hfind Hnum. rewrite (to_float64_length s close Hnum).
  apply (Hwf "close"). now apply find_column_In.
Qed.

Section JobClaims.

Variable lib : libraries.

Lemma nth_error_all {A} (x : A) (l : list A) :
  Forall (eq x) l -> forall i, (i < List.length l)%nat -> nth_error l i = Some x.
Proof.
  intros Hall i Hi. destruct (nth_error l i) as [y|] eqn:Hy.
  - apply nth_error_In in Hy. rewrite Forall_forall in Hall. now rewrite (Hall y Hy).
  - apply nth_error_None in Hy. lia.
Qed.

(** C7, as the code has it.  When the window is longer than the table and
    below [2 ^ 63], the job fills the rolling mean column of its table with
    missing values and the signal column with 0, the rate is 0, and the run
    goes through: it writes the success report, with value 0, and exits with
    code 0.  A window of [2 ^ 63] or more ends the run in the handler, with
    an error report that carries the text of the [OverflowError], and with
    code 1. *)
Theorem window_longer_than_table (args : arguments) (w : world)
    (cfg seed version : pyval) (win : Z) (df : DataFrame) (s : series)
    (close : list float) :
  configured lib args w cfg seed (PyInt win) version ->
  load_data lib (fs w) (input args) = Return df ->
  well_formed df ->
  find_column "close" (columns df) = Some s -> to_float64 s = Some close ->
  Z.of_nat (index_len df) < win ->
  writable w (output args) = true ->
  json_serializable version && json_serializable seed = true ->
  (win < 2 ^ 63 ->
     (exists table rm signal rate st,
        compute_signal df (PyInt win)
          (loaded_state cfg seed (PyInt win) version (index_len df))
        = (Return (table, Some rate), st)
        /\ df_getitem table "rolling_mean" = Return (Float64 rm)
        /\ List.length rm = index_len df
        /\ (forall i, (i < index_len df)%nat -> nth_error rm i = Some NaN)
        /\ df_getitem table "signal" = Return (Int64 signal)
        /\ List.length signal = index_len df
        /\ (forall i, (i < index_len df)%nat -> nth_error signal i = Some 0)
        /\ (rate == 0)%Q)
     /\ run_exit_code (main lib args w) = 0
     /\ exists r,
          writes_to (output args) (run_effects (main lib args w)) = [(OnSuccess r, true)]
          /\ s_rows_processed r = index_len df
          /\ float_eq (s_value r) (Some 0%Q))
  /\ (2 ^ 63 <= win ->
      run_exit_code (main lib args w) = 1
      /\ writes_to (output args) (run_effects (main lib args w))
         = [(OnError (mkError version "error" "Python int too large to convert to C long"),
             true)]).
Proof.
  intros Hconf Hdata Hwf Hfind Hnum Hlong Hwr Hjs.
  pose proof (close_column_length df s close Hwf Hfind Hnum) as Hlen.
  destruct (load_data_inv lib _ _ _ Hdata) as (_ & _ & _ & Hrows & _).
  split; intros Hbig.
  - assert (Hne : close <> []) by (intros ->; cbn in Hlen; lia).
    destruct (never_full_window close win Hne ltac:(lia) ltac:(left; lia))
      as (Hall & Hzero & rate & Hrate & Hr0).
    pose proof (compute_signal_numeric df s close win
                  (loaded_state cfg seed (PyInt win) version (index_len df))
                  Hfind Hnum ltac:(split; [lia | assumption])) as Hrun.
    rewrite Hrate in Hrun.
    assert (Hsig : signal_rate_of df (PyInt win) = Return (Some rate)).
    { apply signal_rate_of_return. eexists.
      destruct (compute_signal_frame df (PyInt win)
                  (loaded_state cfg seed (PyInt win) version (index_len df)))
        as (_ & _ & _ & Hval).
      rewrite <- Hval, Hrun. reflexivity. }
    destruct (main_success lib args w cfg seed (PyInt win) version df (Some rate)
                Hconf Hdata Hsig Hwr Hjs) as [Hexit Hwrites].
    destruct (table_columns df s (Float64 (roll_mean close win win))
                (Int64 (signal_of close win)) Hfind) as (_ & Hrm & Hsignal).
    split; [|split].
    + do 5 eexists. split; [exact Hrun|].
      split; [exact Hrm | split; [now rewrite roll_mean_length | split]].
      { intros i Hi. apply Hall. lia. }
      split; [exact Hsignal | split; [now rewrite signal_of_length | split]].
      { intros i Hi. apply nth_error_all; [assumption | rewrite signal_of_length; lia]. }
      exact Hr0.
    + unfold run_exit_code. now rewrite Hexit.
    + eexists. split; [exact Hwrites | split; [reflexivity|]].
      cbn [s_value py_float option_map]. now rewrite (nearest_double_zero rate Hr0).
  - assert (Hsig : signal_rate_of df (PyInt win)
                   = Raise (OverflowError "Python int too large to convert to C long")).
    { unfold signal_rate_of, signal_block_of, compute_signal, bind, lift, df_getitem,
        rolling, rolling_mean.
      rewrite Hfind. replace (win <? 0) with false by (symmetry; apply Z.ltb_ge; lia).
      cbn [fst snd]. rewrite Hnum. apply Z.leb_le in Hbig. now rewrite Hbig. }
    destruct (main_signal_fault lib args w cfg seed (PyInt win) version df _ Hconf Hdata Hsig)
      as (st & Hmain & Hvar & Hnone).
    assert (Hver : py_getitem cfg "version" = Return version) by apply Hconf.
    unfold run_exit_code, run_effects. rewrite Hmain.
    split; [apply handler_exit_code|].
    rewrite (handler_writes args w _ st version) by (now rewrite Hvar).
    rewrite Hnone, Hwr. apply andb_true_iff in Hjs. destruct Hjs as [-> _]. reflexivity.
Qed.

(** C4. In a run that succeeds the report written is the success report.
    The rate is the number of rows with signal 1 over the number of rows, in
    the signal column the job has put in its table, and lies between 0 and 1;
    the program holds the double next to it, which lies between 0 and 1 too,
    and the value of the report is that double rounded to four decimals.  The
    signal column has one value per row: 1 where the close of the row is
    greater than the rolling mean the job has put in the table, and 0
    elsewhere. *)
Theorem signal_rate_report (args : arguments) (w : world) :
  (forall text df, read_csv lib text = Parsed df -> well_formed df) ->
  run_exit_code (main lib args w) = 0 ->
  exists r cfg seed window version df table st close_col close rm signal rate held n,
    writes_to (output args) (run_effects (main lib args w)) = [(OnSuccess r, true)]
    /\ configured lib args w cfg seed window version
    /\ load_data lib (fs w) (input args) = Return df
    /\ compute_signal df window (loaded_state cfg seed window version (index_len df))
       = (Return (table, Some rate), st)
    /\ df_getitem table "close" = Return close_col
    /\ to_float64 close_col = Some close
    /\ df_getitem table "rolling_mean" = Return (Float64 rm)
    /\ df_getitem table "signal" = Return (Int64 signal)
    /\ List.length signal = index_len df
    /\ (forall i c m, nth_error close i = Some c -> nth_error rm i = Some m ->
          nth_error signal i = Some (if float_gt c m then 1 else 0))
    /\ s_rows_processed r = index_len df
    /\ (rate == inject_Z (Z.of_nat (count_ones signal))
                / inject_Z (Z.of_nat (index_len df)))%Q
    /\ (0 <= rate <= 1)%Q
    /\ py_float (Some rate) = Some held
    /\ (0 <= held <= 1)%Q
    /\ (Qabs (held - rate) <= 1 # 9007199254740992)%Q
    /\ s_value r = Some (inject_Z n / 10000)%Q
    /\ 0 <= n <= 10000
    /\ (Qabs (inject_Z n / 10000 - held) <= 1 # 20000)%Q.
Proof.
  intros Hwf Hexit.
  destruct (main_cases lib args w) as [(e & st & Hfail) | Hok].
  { unfold run_exit_code in Hexit. rewrite Hfail, handler_exit_code in Hexit.
    discriminate. }
  destruct Hok as (cfg & seed & window & version & df & table & rate0 & st & Hcfg & Hseed
                   & Hwin & Hver & Hgen & Hdata & Hsig & Hwr & Hjs & Hmain).
  destruct (compute_signal_frame df window
              (loaded_state cfg seed window version (index_len df)))
    as (_ & Hwrites & _ & Hval).
  rewrite Hsig in Hwrites, Hval. cbn [fst snd] in Hwrites, Hval.
  destruct (signal_block_inv df table window rate0 (eq_sym Hval))
    as (s & close & win & -> & Hw0 & Hfind & Hnum & Htable & ->).
  destruct (load_data_inv lib _ _ _ Hdata) as (text & _ & Hparsed & Hrows & _).
  pose proof (close_column_length df s close (Hwf text df Hparsed) Hfind Hnum) as Hlen.
  pose proof (signal_of_length close win) as Hsiglen.
  assert (Hne : signal_of close win <> [])
    by (intros Hnil; rewrite Hnil in Hsiglen; cbn in Hsiglen; lia).
  destruct (mean_int_binary (signal_of close win) Hne (signal_of_binary close win))
    as (rate & Hmean & Hrate & Hbounds).
  destruct (report_value_spec rate Hbounds)
    as (held & n & Hheld & Hheld01 & Hclose & Hround & Hn & Hnear).
  destruct (table_columns df s (Float64 (roll_mean close win win))
              (Int64 (signal_of close win)) Hfind) as (Hc & Hrm & Hsignal).
  rewrite <- Htable in Hc, Hrm, Hsignal. rewrite Hmean in Hsig, Hmain.
  exists (mkSuccess version (index_len df) "signal_rate" (round4 (py_float (Some rate)))
            (elapsed_ms w) seed "success"), cfg, seed, (PyInt win), version, df, table, st,
    s, close, (roll_mean close win win), (signal_of close win), rate, held, n.
  split.
  { unfold run_effects. rewrite Hmain. cbn [snd effects].
    rewrite writes_to_app, Hwrites. cbn. now rewrite String.eqb_refl. }
  split; [repeat split; assumption|].
  split; [exact Hdata | split; [exact Hsig|]].
  split; [exact Hc | split; [exact Hnum | split; [exact Hrm | split; [exact Hsignal|]]]].
  split; [lia|].
  split.
  { intros i c m Hci Hmi. unfold signal_of.
    rewrite nth_error_map, (zip_with_nth_error float_gt close _ i c m Hci Hmi).
    reflexivity. }
  split; [reflexivity|].
  split; [now rewrite Hrate, Hsiglen, Hlen|].
  split; [exact Hbounds|].
  split; [exact Hheld | split; [exact Hheld01 | split; [exact Hclose|]]].
  split; [exact Hround|].
  split; [exact Hn | exact Hnear].
Qed.

(** C6. When the configuration loader raises, the error report carries the
    version ["unknown"]; when the configuration is loaded and the dataset
    loader or the signal block raises, it carries the version of the
    configuration.  The status is ["error"], the message is the text of the
    exception, and the process exits with code 1. *)
Theorem error_report_version (args : arguments) (w : world) :
  (forall e,
     load_config lib (fs w) (config args) = Raise e ->
     run_exit_code (main lib args w) = 1
     /\ writes_to (output args) (run_effects (main lib args w))
        = if writable w (output args)
          then [(OnError (mkError (PyStr "unknown") "error" (str_exn e)), true)]
          else [])
  /\ (forall cfg seed window version e,
     configured lib args w cfg seed window version ->
     load_data lib (fs w) (input args) = Raise e
     \/ (exists df, load_data lib (fs w) (input args) = Return df
                    /\ signal_rate_of df window = Raise e) ->
     run_exit_code (main lib args w) = 1
     /\ writes_to (output args) (run_effects (main lib args w))
        = if writable w (output args)
          then [(OnError (mkError version "error" (str_exn e)),
                 json_serializable version)]
          else []).
Proof.
  split.
  - intros e Hcfg. unfold run_exit_code, run_effects.
    rewrite (main_config_fault lib args w e Hcfg). split; [apply handler_exit_code|].
    rewrite (handler_writes args w e _ (PyStr "unknown")) by reflexivity.
    cbn. now destruct (writable w (output args)).
  - intros cfg seed window version e Hconf Hfault.
    assert (Hver : py_getitem cfg "version" = Return version) by apply Hconf.
    unfold run_exit_code, run_effects.
    destruct Hfault as [Hdata | (df & Hdata & Hsig)].
    + rewrite (main_data_fault lib args w cfg seed window version e Hconf Hdata).
      split; [apply handler_exit_code|].
      rewrite (handler_writes args w e _ version) by exact Hver.
      cbn. now destruct (writable w (output args)).
    + destruct (main_signal_fault lib args w cfg seed window version df e Hconf Hdata Hsig)
        as (st & -> & Hvar & Hnone).
      split; [apply handler_exit_code|].
      rewrite (handler_writes args w e st version) by (now rewrite Hvar).
      now rewrite Hnone.
Qed.

(** C9, at a run that breaks it.  A document that is the list of the three
    key names passes the loader; reading [config["seed"]] then raises, and so
    does [config["version"]] inside the handler: nothing is written to the
    output path and the run ends on the uncaught [TypeError]. *)
Theorem no_report_for_list_config (args : arguments) (w : world) (text : string) :
  fs w (config args) = Some text ->
  safe_load lib text = Parsed (PyList [PyStr "seed"; PyStr "window"; PyStr "version"]) ->
  fst (main lib args w)
  = Raise (TypeError "list indices must be integers or slices, not str")
  /\ run_exit_code (main lib args w) = 1
  /\ writes_to (output args) (run_effects (main lib args w)) = [].
Proof.
  intros Hfile Hdoc.
  assert (Hcfg : load_config lib (fs w) (config args)
                 = Return (PyList [PyStr "seed"; PyStr "window"; PyStr "version"])).
  { unfold load_config. now rewrite Hfile, Hdoc. }
  unfold run_exit_code, run_effects.
  rewrite (main_subscript_fault lib args w _ _ Hcfg eq_refl).
  repeat split.
Qed.

End JobClaims.

(** ** The report of a run *)
Section ReportWritten.

Variable lib : libraries.

Lemma main_seed_fault (args : arguments) (w : world)
    (cfg seed window version : pyval) (e : exn) :
  load_config lib (fs w) (config args) = Return cfg ->
  py_getitem cfg "seed" = Return seed ->
  py_getitem cfg "window" = Return window ->
  py_getitem cfg "version" = Return version ->
  seed_generator lib seed = Raise e ->
  main lib args w
  = handler args w e
      (mkSt [Log INFO JobStarted; Log INFO (ConfigLoaded seed window version)] (Some cfg)).
Proof.
  intros Hcfg Hseed Hwin Hver Hgen.
  unfold main, try_except, try_body, bind, lift, emit, assign_config.
  cbn [effects config_var app fst snd]. rewrite Hcfg, Hseed, Hwin, Hver, Hgen.
  pose proof (catchable_seed_generator lib seed) as Hc.
  rewrite Hgen in Hc. cbn in Hc. now rewrite Hc.
Qed.




End ReportWritten.

(** ** Two runs on the same files *)

Lemma same_ret {A} (x : A) : same_job (ret x) (ret x).
Proof. intros a b H. now split. Qed.

Lemma same_lift {A} (r : result A) : same_job (lift r) (lift r).
Proof. intros a b H. now split. Qed.

Lemma same_emit (ev1 ev2 : event) :
  erase_event ev1 = erase_event ev2 -> same_job (emit ev1) (emit ev2).
Proof.
  intros Hev a b [Hvar Heff]. split; [reflexivity|]. split; cbn; [exact Hvar|].
  rewrite !map_app, Heff. cbn. now rewrite Hev.
Qed.

Lemma same_assign (cfg : pyval) : same_job (assign_config cfg) (assign_config cfg).
Proof. intros a b [Hvar Heff]. split; [reflexivity|]. now split. Qed.

Lemma same_locals : same_job locals_config locals_config.
Proof. intros a b [Hvar Heff]. split; cbn; [now rewrite Hvar | now split]. Qed.

Lemma same_bind {A B} (m1 m2 : M A) (k1 k2 : A -> M B) :
  same_job m1 m2 -> (forall x, same_job (k1 x) (k2 x)) ->
  same_job (bind m1 k1) (bind m2 k2).
Proof.
  intros Hm Hk a b Hab. unfold bind.
  destruct (Hm a b Hab) as [Hres Hst].
  destruct (m1 a) as [r1 a'], (m2 b) as [r2 b']. cbn [fst snd] in *. subst r2.
  destruct r1 as [x|e]; [now apply Hk | now split].
Qed.

Lemma same_try_except (body1 body2 : M unit) (h1 h2 : exn -> M unit) :
  same_job body1 body2 -> (forall e, same_job (h1 e) (h2 e)) ->
  same_job (try_except body1 h1) (try_except body2 h2).
Proof.
  intros Hbody Hh a b Hab. unfold try_except.
  destruct (Hbody a b Hab) as [Hres Hst].
  destruct (body1 a) as [r1 a'], (body2 b) as [r2 b']. cbn [fst snd] in *. subst r2.
  destruct r1 as [x|e]; [now split|].
  destruct (is_Exception e); [now apply Hh | now split].
Qed.

Lemma report_serializable_erase (doc : report) :
  report_serializable (erase_latency doc) = report_serializable doc.
Proof. now destruct doc. Qed.

Lemma same_write_json (w1 w2 : world) (path : string) (doc1 doc2 : report) :
  writable w1 path = writable w2 path -> erase_latency doc1 = erase_latency doc2 ->
  same_job (write_json w1 path doc1) (write_json w2 path doc2).
Proof.
  intros Hwr Hdoc. unfold write_json. rewrite Hwr.
  rewrite <- (report_serializable_erase doc1), Hdoc, report_serializable_erase.
  destruct (writable w2 path); cbn [negb]; [|apply same_lift].
  destruct (report_serializable doc2).
  - apply same_emit. cbn. now rewrite Hdoc.
  - apply same_bind; [apply same_emit; cbn; now rewrite Hdoc | intros _; apply same_lift].
Qed.

Ltac same_steps :=
  repeat first
    [ apply same_lift
    | apply same_ret
    | apply same_assign
    | apply same_locals
    | apply same_emit; reflexivity
    | apply same_bind; [|intros ?] ].

Lemma same_compute_signal (df : DataFrame) (window : pyval) :
  same_job (compute_signal df window) (compute_signal df window).
Proof. unfold compute_signal. same_steps. Qed.

Lemma writes_to_erase (path : string) (evs : list event) :
  writes_to path (map erase_event evs)
  = map (fun dc => (erase_latency (fst dc), snd dc)) (writes_to path evs).
Proof.
  induction evs as [|ev evs IH]; cbn; [reflexivity|].
  destruct ev as [lvl msg| | |p doc c]; cbn; try exact IH.
  - destruct msg; exact IH.
  - destruct (String.eqb p path); cbn; now rewrite IH.
Qed.

Section Determinism.

Variable lib : libraries.

Lemma load_config_same_file (files1 files2 : filesystem) (path : string) :
  files1 path = files2 path -> load_config lib files1 path = load_config lib files2 path.
Proof. intros H. unfold load_config. now rewrite H. Qed.

Lemma load_data_same_file (files1 files2 : filesystem) (path : string) :
  files1 path = files2 path -> load_data lib files1 path = load_data lib files2 path.
Proof. intros H. unfold load_data. now rewrite H. Qed.

Lemma same_main (args : arguments) (w1 w2 : world) :
  fs w1 (config args) = fs w2 (config args) ->
  fs w1 (input args) = fs w2 (input args) ->
  writable w1 (output args) = writable w2 (output args) ->
  same_run (main lib args w1) (main lib args w2).
Proof.
  intros Hcfg Hin Hwr.
  enough (Hjob : same_job
            (bind (emit (Log INFO JobStarted))
               (fun _ => try_except (try_body lib args w1) (handler args w1)))
            (bind (emit (Log INFO JobStarted))
               (fun _ => try_except (try_body lib args w2) (handler args w2))))
    by (apply Hjob; now split).
  apply same_bind; [apply same_emit; reflexivity | intros _].
  apply same_try_except.
  - unfold try_body.
    rewrite (load_config_same_file (fs w1) (fs w2) _ Hcfg).
    rewrite (load_data_same_file (fs w1) (fs w2) _ Hin).
    do 8 (apply same_bind; [first [apply same_lift | apply same_assign
                                    | apply same_emit; reflexivity] | intros ?]).
    cbv zeta. apply same_bind; [apply same_emit; reflexivity | intros _].
    apply same_bind; [apply same_compute_signal | intros rate].
    unfold emit_success. cbv zeta.
    apply same_bind; [apply same_write_json; [exact Hwr | reflexivity] | intros _].
    unfold sys_exit. same_steps.
  - intros e. unfold handler. cbv zeta.
    apply same_bind; [apply same_locals | intros bound].
    apply same_bind; [destruct bound; [apply same_lift | apply same_ret] | intros version].
    apply same_bind; [apply same_write_json; [exact Hwr | reflexivity] | intros _].
    unfold sys_exit. same_steps.
Qed.

(** C8. Two runs on the same configuration and input files, with the same
    output path, end with the same exit code and write the same reports:
    every field agrees but the elapsed time. *)
Theorem runs_agree_up_to_latency (args : arguments) (w1 w2 : world) :
  fs w1 (config args) = fs w2 (config args) ->
  fs w1 (input args) = fs w2 (input args) ->
  writable w1 (output args) = writable w2 (output args) ->
  run_exit_code (main lib args w1) = run_exit_code (main lib args w2)
  /\ map (fun dc => (erase_latency (fst dc), snd dc))
         (writes_to (output args) (run_effects (main lib args w1)))
     = map (fun dc => (erase_latency (fst dc), snd dc))
         (writes_to (output args) (run_effects (main lib args w2)))
  /\ forall k r1 r2 c1 c2,
       nth_error (writes_to (output args) (run_effects (main lib args w1))) k
         = Some (OnSuccess r1, c1) ->
       nth_error (writes_to (output args) (run_effects (main lib args w2))) k
         = Some (OnSuccess r2, c2) ->
       s_value r1 = s_value r2 /\ s_rows_processed r1 = s_rows_processed r2
       /\ s_version r1 = s_version r2 /\ s_seed r1 = s_seed r2.
Proof.
  intros Hcfg Hin Hwr.
  destruct (same_main args w1 w2 Hcfg Hin Hwr) as [Hres [_ Heff]].
  assert (Hwrites : map (fun dc => (erase_latency (fst dc), snd dc))
                      (writes_to (output args) (run_effects (main lib args w1)))
                    = map (fun dc => (erase_latency (fst dc), snd dc))
                        (writes_to (output args) (run_effects (main lib args w2)))).
  { unfold run_effects. now rewrite <- !writes_to_erase, Heff. }
  split; [unfold run_exit_code; now rewrite Hres | split; [exact Hwrites |]].
  intros k r1 r2 c1 c2 H1 H2.
  apply (f_equal (fun l => nth_error l k)) in Hwrites.
  rewrite !nth_error_map, H1, H2 in Hwrites. cbn in Hwrites.
  injection Hwrites. intros. repeat split; assumption.
Qed.

End Determinism.

(** ** The claims on the test bench *)

Lemma bench_table_well_formed : well_formed bench_table.
Proof.
  intros name col [H | [H | []]]; injection H as <- <-; reflexivity.
Qed.

Lemma bench_configured (window version : pyval) (table : parsed DataFrame) :
  configured (bench_lib (Parsed (bench_config window version)) table)
    bench_args bench_world (bench_config window version) (PyInt 42) window version.
Proof. repeat split. Qed.

Lemma window_longer_than_table_witness :
  run_exit_code (main (bench_lib (Parsed (bench_config (PyInt 5) (PyStr "v1")))
                         (Parsed bench_table)) bench_args bench_world) = 0.
Proof.
  apply (proj1 (proj2 (proj1 (window_longer_than_table
           (bench_lib (Parsed (bench_config (PyInt 5) (PyStr "v1"))) (Parsed bench_table))
           bench_args bench_world (bench_config (PyInt 5) (PyStr "v1"))
           (PyInt 42) (PyStr "v1") 5 bench_table (Int64 [1; 2; 6])
           [1; 2; 6]%float
           (bench_configured _ _ _) eq_refl bench_table_well_formed eq_refl eq_refl
           ltac:(cbn; lia) eq_refl eq_refl) eq_refl))).
Defined.

(** The claim as the specification has it fails at a window of [2 ^ 63],
    which is longer than the three rows of the table: the run does not go
    through, it writes an error report and ends with code 1. *)
Lemma window_beyond_int64 :
  Z.of_nat (index_len bench_table) < 2 ^ 63
  /\ run_exit_code (main (bench_lib (Parsed (bench_config (PyInt (2 ^ 63)) (PyStr "v1")))
                            (Parsed bench_table)) bench_args bench_world) = 1
  /\ writes_to "metrics.json"
       (run_effects (main (bench_lib (Parsed (bench_config (PyInt (2 ^ 63)) (PyStr "v1")))
                             (Parsed bench_table)) bench_args bench_world))
     = [(OnError (mkError (PyStr "v1") "error" "Python int too large to convert to C long"),
         true)].
Proof.
  split; [reflexivity | split; vm_compute; reflexivity].
Qed.

Lemma signal_rate_report_witness :
  exists r cfg seed window version df table st close_col close rm signal rate held n,
    writes_to "metrics.json"
      (run_effects (main (bench_lib (Parsed (bench_config (PyInt 2) (PyStr "v1")))
                            (Parsed bench_table)) bench_args bench_world))
    = [(OnSuccess r, true)]
    /\ configured (bench_lib (Parsed (bench_config (PyInt 2) (PyStr "v1")))
                     (Parsed bench_table)) bench_args bench_world cfg seed window version
    /\ load_data (bench_lib (Parsed (bench_config (PyInt 2) (PyStr "v1")))
                    (Parsed bench_table)) bench_files "data.csv" = Return df
    /\ compute_signal df window (loaded_state cfg seed window version (index_len df))
       = (Return (table, Some rate), st)
    /\ df_getitem table "close" = Return close_col
    /\ to_float64 close_col = Some close
    /\ df_getitem table "rolling_mean" = Return (Float64 rm)
    /\ df_getitem table "signal" = Return (Int64 signal)
    /\ List.length signal = index_len df
    /\ (forall i c m, nth_error close i = Some c -> nth_error rm i = Some m ->
          nth_error signal i = Some (if float_gt c m then 1 else 0))
    /\ s_rows_processed r = index_len df
    /\ (rate == inject_Z (Z.of_nat (count_ones signal))
                / inject_Z (Z.of_nat (index_len df)))%Q
    /\ (0 <= rate <= 1)%Q
    /\ py_float (Some rate) = Some held
    /\ (0 <= held <= 1)%Q
    /\ (Qabs (held - rate) <= 1 # 9007199254740992)%Q
    /\ s_value r = Some (inject_Z n / 10000)%Q
    /\ 0 <= n <= 10000
    /\ (Qabs (inject_Z n / 10000 - held) <= 1 # 20000)%Q.
Proof.
  apply (signal_rate_report
           (bench_lib (Parsed (bench_config (PyInt 2) (PyStr "v1"))) (Parsed bench_table))
           bench_args bench_world).
  - intros text df [= <-]. exact bench_table_well_formed.
  - reflexivity.
Defined.

Lemma error_report_version_witness :
  run_exit_code (main (bench_lib (ParseError "mapping values are not allowed here")
                         (Parsed bench_table)) bench_args bench_world) = 1
  /\ writes_to "metrics.json"
       (run_effects (main (bench_lib (ParseError "mapping values are not allowed here")
                             (Parsed bench_table)) bench_args bench_world))
     = [(OnError (mkError (PyStr "unknown") "error" "mapping values are not allowed here"),
         true)].
Proof.
  apply (proj1 (error_report_version
                  (bench_lib (ParseError "mapping values are not allowed here")
                     (Parsed bench_table)) bench_args bench_world)
           (YAMLError "mapping values are not allowed here")).
  reflexivity.
Defined.

Lemma runs_agree_up_to_latency_witness :
  run_exit_code (main (bench_lib (Parsed (bench_config (PyInt 2) (PyStr "v1")))
                         (Parsed bench_table)) bench_args bench_world)
  = run_exit_code (main (bench_lib (Parsed (bench_config (PyInt 2) (PyStr "v1")))
                           (Parsed bench_table)) bench_args
                     (mkWorld bench_files (fun _ => true) 10 (25 # 2) (51 # 4))).
Proof.
  apply (runs_agree_up_to_latency
           (bench_lib (Parsed (bench_config (PyInt 2) (PyStr "v1"))) (Parsed bench_table))
           bench_args bench_world (mkWorld bench_files (fun _ => true) 10 (25 # 2) (51 # 4))
           eq_refl eq_refl eq_refl).
Defined.

Lemma no_report_for_list_config_witness :
  fst (main (bench_lib (Parsed (PyList [PyStr "seed"; PyStr "window"; PyStr "version"]))
               (Parsed bench_table)) bench_args bench_world)
  = Raise (TypeError "list indices must be integers or slices, not str")
  /\ run_exit_code
       (main (bench_lib (Parsed (PyList [PyStr "seed"; PyStr "window"; PyStr "version"]))
                (Parsed bench_table)) bench_args bench_world) = 1
  /\ writes_to "metrics.json"
       (run_effects
          (main (bench_lib (Parsed (PyList [PyStr "seed"; PyStr "window"; PyStr "version"]))
                   (Parsed bench_table)) bench_args bench_world)) = [].
Proof.
  apply (no_report_for_list_config
           (bench_lib (Parsed (PyList [PyStr "seed"; PyStr "window"; PyStr "version"]))
              (Parsed bench_table)) bench_args bench_world "config" eq_refl eq_refl).
Defined.

(** Other runs of the bench, by computation. *)

Example bench_run_window_2 :
  writes_to "metrics.json"
    (run_effects (main (bench_lib (Parsed (bench_config (PyInt 2) (PyStr "v1")))
                          (Parsed bench_table)) bench_args bench_world))
  = [(OnSuccess (mkSuccess (PyStr "v1") 3 "signal_rate" (Some (6667 # 10000)) 1500
                   (PyInt 42) "success"), true)].
Proof. vm_compute. reflexivity. Qed.

(** A version that YAML loads as a date cannot be serialised: the success
    report is cut short, and so is the error report of the handler. *)
Example bench_run_date_version :
  writes_to "metrics.json"
    (run_effects (main (bench_lib (Parsed (bench_config (PyInt 2) (PyDate "2024-01-15")))
                          (Parsed bench_table)) bench_args bench_world))
  = [(OnSuccess (mkSuccess (PyDate "2024-01-15") 3 "signal_rate" (Some (6667 # 10000))
                   1500 (PyInt 42) "success"), false);
     (OnError (mkError (PyDate "2024-01-15") "error" "Object of type date is not JSON serializable"),
      false)].
Proof. vm_compute. reflexivity. Qed.

(** ** Rounding at work *)

(** The three closes 1.57, 1.55, 1.56 with a window of three rows: the mean
    of the last row is rounded below 1.56, so the row signals and the report
    carries a third. *)
Example bench_run_rounded_mean :
  writes_to "metrics.json"
    (run_effects
       (main (bench_lib (Parsed (bench_config (PyInt 3) (PyStr "v1")))
                (Parsed (mkDataFrame 3 [("close", Float64 [1.57; 1.55; 1.56]%float)])))
          bench_args bench_world))
  = [(OnSuccess (mkSuccess (PyStr "v1") 3 "signal_rate" (Some (3333 # 10000)) 1500
                   (PyInt 42) "success"), true)].
Proof. vm_compute. reflexivity. Qed.

(** The double held for a rate is the quotient of the two counts in binary64:
    for every table of up to 100 rows and every number of signals in it,
    [nearest_double] gives the number that the division of the two counts, as
    doubles, gives. *)
Example nearest_double_is_the_float_quotient :
  forallb (fun rows =>
             forallb (fun count =>
                        match float_value (div (float_of_Z count) (float_of_Z rows)) with
                        | Some x => Qeq_bool (nearest_double (count # Z.to_pos rows)) x
                        | None => false
                        end)
                     (range 0 (rows + 1)))
          (range 1 101)
  = true.
Proof. vm_compute. reflexivity. Qed.

(** X23.  One signal in 160 rows: the rate 1/160 lies half way between 0.0062
    and 0.0063; the double held for it lies above, and the report carries
    0.0063, where the exact quotient would be rounded to 0.0062. *)
Example bench_run_rate_half_way :
  writes_to "metrics.json"
    (run_effects
       (main (bench_lib (Parsed (bench_config (PyInt 2) (PyStr "v1")))
                (Parsed (mkDataFrame 160
                           [("close", Float64 (repeat 1%float 159 ++ [2%float]))])))
          bench_args bench_world))
  = [(OnSuccess (mkSuccess (PyStr "v1") 160 "signal_rate" (Some (63 # 10000)) 1500
                   (PyInt 42) "success"), true)]
  /\ round4 (Some (1 # 160)) = Some (62 # 10000).
Proof. split; vm_compute; reflexivity. Qed.

(** An infinite close is no observation: the windows that hold it have no
    mean, and the row itself does not signal. *)
Example infinite_close_blanks_its_windows :
  roll_mean [1; infinity; 3; 4; 5]%float 2 2 = [NaN; NaN; NaN; 3.5; 4.5]%float
  /\ signal_of [1; infinity; 3; 4; 5]%float 2 = [0; 0; 0; 1; 1].
Proof. split; vm_compute; reflexivity. Qed.

(** Integers beyond [2 ^ 53] are compared as the doubles next to them:
    [2 ^ 53 + 1] is not above the mean of itself and [2 ^ 53]. *)
Example int64_closes_are_cast :
  to_float64 (Int64 [2 ^ 53; 2 ^ 53 + 1])
  = Some [9007199254740992; 9007199254740992]%float
  /\ signal_block_of (mkDataFrame 2 [("close", Int64 [2 ^ 53; 2 ^ 53 + 1])]) (PyInt 2)
     = Return (mkDataFrame 2 [("close", Int64 [2 ^ 53; 2 ^ 53 + 1]);
                              ("rolling_mean", Float64 [NaN; 9007199254740992%float]);
                              ("signal", Int64 [0; 0])],
               Some (0 # 2)).
Proof. split; vm_compute; reflexivity. Qed.

(** * Further properties *)

(** ** The signal of a row against its window *)

Lemma signal_of_nth (close : list float) (w : Z) (i : nat) (c r : float) :
  nth_error close i = Some c -> nth_error (roll_mean close w w) i = Some r ->
  nth_error (signal_of close w) i = Some (int_of_bool (float_gt c r)).
Proof.
  intros Hc Hr. unfold signal_of.
  now rewrite nth_error_map, (zip_with_nth_error float_gt close _ i c r Hc Hr).
Qed.


(** X22.  Rounding can put the mean of a window below every close in it, and
    the row then signals although no close of its window is lower than its
    own: here the last of five closes, four of them equal. *)
Example signal_at_window_minimum :
  let close := [0.87000000000000011; 0.87; 0.87; 0.87; 0.87]%float in
  nth_error (roll_mean close 5 5) 4 = Some 0.86999999999999988%float
  /\ Forall (fun c => float_gt c 0.86999999999999988%float = true) close
  /\ Forall (fun c => float_gt 0.87%float c = false) close
  /\ signal_of close 5 = [0; 0; 0; 0; 1].
Proof.
  cbv zeta. split; [vm_compute; reflexivity | split; [|split]].
  - repeat constructor.
  - repeat constructor.
  - vm_compute. reflexivity.
Qed.

Lemma rows_all_equal {A} (x : A) (l : list A) :
  (forall i, (i < List.length l)%nat -> nth_error l i = Some x) -> Forall (eq x) l.
Proof.
  intros Hall. apply Forall_forall. intros y Hin.
  destruct (In_nth_error l y Hin) as [i Hi].
  assert (Hlt : (i < List.length l)%nat) by (apply nth_error_Some; congruence).
  rewrite (Hall i Hlt) in Hi. congruence.
Qed.

Lemma window_one_row (close : list float) (i : nat) :
  (i < List.length close)%nat -> nth_error (signal_of close 1) i = Some 0.
Proof.
  intros Hi.
  destruct (nth_error close i) as [c|] eqn:Hc; [|apply nth_error_None in Hc; lia].
  rewrite (signal_of_nth close 1 i c _ Hc (roll_mean_window_one close i c Hc)).
  destruct (unusable c); [now rewrite float_gt_missing | now rewrite float_gt_irrefl].
Qed.

(** X15.  With a window of one row the rolling mean of a row is its own close,
    which is never greater than itself: no row signals, whatever the data. *)
Theorem window_one_never_signals (close : list float) :
  Forall (eq 0) (signal_of close 1)
  /\ (close <> [] -> exists rate, mean_int (signal_of close 1) = Some rate /\ (rate == 0)%Q).
Proof.
  assert (Hzero : Forall (eq 0) (signal_of close 1)).
  { apply rows_all_equal. intros i Hi. apply window_one_row.
    now rewrite signal_of_length in Hi. }
  split; [exact Hzero|]. intros Hne.
  pose proof (signal_of_length close 1) as Hlen.
  unfold mean_int. rewrite (Zsum_zeros _ Hzero).
  destruct (signal_of close 1) as [|z l] eqn:Hsig.
  - destruct close; [contradiction | discriminate].
  - eexists. split; [reflexivity|]. unfold Qdiv. ring.
Qed.



(** ** More on the loaders *)

Section LoaderProperties.

Variable lib : libraries.

Lemma load_config_checked (files : filesystem) (path : string) (cfg : pyval) :
  load_config lib files path = Return cfg -> check_keys required_keys cfg = Return tt.
Proof.
  unfold load_config. destruct (files path) as [text|]; [|discriminate].
  destruct (safe_load lib text) as [doc|]; [|discriminate].
  destruct (check_keys required_keys doc) as [[]|] eqn:Hkeys; [|discriminate].
  now intros [= <-].
Qed.

(** X2.  The three subscripts [main] makes on a loaded configuration never
    raise [KeyError]: on a mapping they return a value, because the loader
    saw the three keys, and on anything else the loader let through they
    raise [TypeError]. *)
Theorem loaded_config_subscripts (files : filesystem) (path : string) (cfg : pyval)
    (key : string) :
  load_config lib files path = Return cfg -> In key required_keys ->
  match cfg with
  | PyDict _ => exists v, py_getitem cfg key = Return v
  | _ => exists msg, py_getitem cfg key = Raise (TypeError msg)
  end.
Proof.
  intros Hload Hkey. apply load_config_checked in Hload.
  destruct cfg; try (cbn; eauto; fail); try (cbn in Hload; discriminate).
  revert Hload. unfold required_keys. cbn [check_keys py_in rbind].
  destruct (existsb (fun kv => String.eqb "seed" (fst kv)) pairs) eqn:H1; [|discriminate].
  destruct (existsb (fun kv => String.eqb "window" (fst kv)) pairs) eqn:H2; [|discriminate].
  destruct (existsb (fun kv => String.eqb "version" (fst kv)) pairs) eqn:H3; [|discriminate].
  intros _. apply dict_has_key in H1, H2, H3. cbn [py_getitem].
  destruct Hkey as [<- | [<- | [<- | []]]].
  - destruct (dict_get "seed" pairs); [eauto | congruence].
  - destruct (dict_get "window" pairs); [eauto | congruence].
  - destruct (dict_get "version" pairs); [eauto | congruence].
Qed.

Lemma has_column_find (name : string) (df : DataFrame) :
  has_column name df = true -> exists col, find_column name (columns df) = Some col.
Proof.
  unfold has_column. induction (columns df) as [|[n c] cols IH]; cbn; [discriminate|].
  destruct (String.eqb name n); cbn; [eauto | exact IH].
Qed.

(** X3.  The dataset loader either returns a table that has rows, has
    columns and has a [close] column to subscript, or raises one of four
    faults with fixed texts; the text of a parser fault is never passed on. *)
Theorem load_data_outcomes (files : filesystem) (path : string) :
  match load_data lib files path with
  | Return df =>
      (0 < index_len df)%nat /\ columns df <> []
      /\ exists col, df_getitem df "close" = Return col
  | Raise e =>
      e = FileNotFoundError "Input CSV file not found"
      \/ e = ValueError "Invalid CSV file format"
      \/ e = ValueError "Input file is empty"
      \/ e = ValueError "Missing required column: close"
  end.
Proof.
  unfold load_data. destruct (files path) as [text|]; [|now left].
  destruct (read_csv lib text) as [df|msg]; [|now right; left].
  destruct (df_empty df) eqn:Hempty; [now right; right; left|].
  destruct (has_column "close" df) eqn:Hcol; cbn [negb]; [|now right; right; right].
  unfold df_empty in Hempty. apply orb_false_iff in Hempty. destruct Hempty as [Hrows Hcols].
  apply Nat.eqb_neq in Hrows, Hcols.
  split; [lia | split].
  - intros Hnil. rewrite Hnil in Hcols. now apply Hcols.
  - destruct (has_column_find "close" df Hcol) as [col Hfind].
    exists col. unfold df_getitem. now rewrite Hfind.
Qed.

End LoaderProperties.

Lemma loaded_config_subscripts_witness :
  exists v, py_getitem (bench_config (PyInt 2) (PyStr "v1")) "window" = Return v.
Proof.
  apply (loaded_config_subscripts
           (bench_lib (Parsed (bench_config (PyInt 2) (PyStr "v1"))) (Parsed bench_table))
           bench_files "config.yaml" (bench_config (PyInt 2) (PyStr "v1")) "window"
           eq_refl).
  right. now left.
Defined.

Lemma load_config_mapping_witness :
  load_config (bench_lib (Parsed (PyDict [("seed", PyInt 1); ("version", PyStr "v1")]))
                 (Parsed bench_table)) bench_files "config.yaml"
  = Raise (ValueError "Invalid configuration file structure").
Proof.
  apply (proj2 (load_config_mapping
                  (bench_lib (Parsed (PyDict [("seed", PyInt 1); ("version", PyStr "v1")]))
                     (Parsed bench_table))
                  bench_files "config.yaml" "config"
                  [("seed", PyInt 1); ("version", PyStr "v1")] eq_refl eq_refl)).
  intros HF. inversion_clear HF as [|? ? _ HF1]. inversion_clear HF1 as [|? ? Hwin _].
  now apply Hwin.
Defined.

(** ** The signal block reads one column *)

Lemma signal_rate_of_close (df : DataFrame) (window : pyval) :
  signal_rate_of df window
  = match find_column "close" (columns df) with
    | None => Raise (KeyError "close")
    | Some c =>
        (roll <- rolling c window ;;
         rm <- rolling_mean roll ;;
         above <- series_gt c rm ;;
         series_mean (astype_int above))%result
    end.
Proof.
  unfold signal_rate_of, signal_block_of, compute_signal, bind, lift, emit, ret, df_getitem.
  destruct (find_column "close" (columns df)) as [c|] eqn:Hfind; [|reflexivity].
  destruct (rolling c window) as [roll|]; cbn [rbind fst]; [|reflexivity].
  destruct (rolling_mean roll) as [rm|]; cbn [rbind fst]; [|reflexivity].
  cbn [fst snd df_setitem columns rbind].
  rewrite !find_column_set_same.
  rewrite !(find_column_set_other "close" "rolling_mean") by reflexivity.
  rewrite Hfind. cbn [fst snd effects config_var].
  destruct (series_gt c rm) as [above|]; cbn [rbind fst]; [|reflexivity].
  cbn [fst snd df_setitem columns rbind].
  rewrite !find_column_set_same.
  now destruct (series_mean (astype_int above)).
Qed.

(** X12.  The rate depends on the table through its [close] column alone.
    Other columns, and columns named [rolling_mean] or [signal] that the
    file may already have, are overwritten or ignored. *)
Theorem signal_reads_close_only (df1 df2 : DataFrame) (window : pyval) :
  find_column "close" (columns df1) = find_column "close" (columns df2) ->
  signal_rate_of df1 window = signal_rate_of df2 window.
Proof.
  intros Hsame. now rewrite !signal_rate_of_close, Hsame.
Qed.

Lemma signal_reads_close_only_witness :
  signal_rate_of bench_table (PyInt 2)
  = signal_rate_of (mkDataFrame 3 [("signal", Object ["buy"; "sell"; "buy"]);
                                   ("close", Int64 [1; 2; 6]);
                                   ("rolling_mean", Float64 [9; 9; 9]%float)])
      (PyInt 2).
Proof.
  apply (signal_reads_close_only bench_table
           (mkDataFrame 3 [("signal", Object ["buy"; "sell"; "buy"]);
                           ("close", Int64 [1; 2; 6]);
                           ("rolling_mean", Float64 [9; 9; 9]%float)])
           (PyInt 2)).
  reflexivity.
Defined.

(** ** The effects of a run *)

Lemma error_lines_app (l m : list event) :
  error_lines (l ++ m) = error_lines l ++ error_lines m.
Proof.
  induction l as [|ev l IH]; cbn; [reflexivity|].
  destruct ev as [[] msg| | |]; cbn; now rewrite ?IH.
Qed.

Lemma error_messages_app (l m : list (report * bool)) :
  error_messages (l ++ m) = error_messages l ++ error_messages m.
Proof.
  induction l as [|[[r|r] []] l IH]; cbn; now rewrite ?IH.
Qed.

(** The signal block only prints the preview and logs at level INFO. *)
Lemma compute_signal_effects (df : DataFrame) (window : pyval) (st : state) :
  exists extra,
    effects (snd (compute_signal df window st)) = effects st ++ extra
    /\ error_lines extra = []
    /\ forall path, writes_to path extra = [].
Proof.
  unfold compute_signal, bind, lift, emit, ret. cbn.
  repeat step; cbn; rewrite <- ?app_assoc; eexists;
    (split; [try reflexivity; symmetry; apply app_nil_r | split; [reflexivity | reflexivity]]).
Qed.

(** What the handler adds to the effects: nothing, the start of an error
    report, or the whole report followed by the two log lines and the print. *)
Lemma handler_effects (args : arguments) (w : world) (e : exn) (st : state) :
  exists extra,
    effects (snd (handler args w e st)) = effects st ++ extra
    /\ (extra = []
        \/ (exists version,
              extra = [WriteFile (output args) (error_doc version e) false])
        \/ (exists version,
              extra = [WriteFile (output args) (error_doc version e) true;
                       Log ERROR (ErrorOccurred (str_exn e));
                       Log INFO (JobFailed (failed_ms w));
                       PrintReport (error_doc version e)])).
Proof.
  destruct (config_var st) as [cfg|] eqn:Hvar.
  - destruct (py_getitem cfg "version") as [version|e'] eqn:Hver.
    + rewrite (handler_bound args w e st cfg version Hvar Hver).
      destruct (writable w (output args)); [|exists []; split; [now rewrite app_nil_r | now left]].
      destruct (json_serializable version); eexists; (split; [reflexivity|]); eauto.
    + exists []. split; [|now left].
      unfold handler, bind, locals_config, lift. cbn. rewrite Hvar, Hver. cbn.
      now rewrite app_nil_r.
  - rewrite (handler_unbound args w e st Hvar).
    destruct (writable w (output args)); [|exists []; split; [now rewrite app_nil_r | now left]].
    eexists. split; [reflexivity|]. right. right. eauto.
Qed.

Section RunProperties.

Variable lib : libraries.

(** A run that does not go through enters the handler in a state without
    ERROR lines, whose output file is untouched or holds the start of the
    success report. *)
Lemma main_fault_cases (args : arguments) (w : world) :
  (exists e st,
     main lib args w = handler args w e st
     /\ error_lines (effects st) = []
     /\ (writes_to (output args) (effects st) = []
         \/ exists cfg version seed rows rate,
              writes_to (output args) (effects st)
              = [(success_doc w version seed rows rate, false)]
              /\ config_var st = Some cfg
              /\ py_getitem cfg "version" = Return version
              /\ writable w (output args) = true))
  \/ (exists st doc,
        main lib args w = (Raise (SystemExit 0), st)
        /\ error_lines (effects st) = []
        /\ writes_to (output args) (effects st) = [(doc, true)]
        /\ exists r, doc = OnSuccess r).
Proof.
  unfold main, try_except, try_body, bind, lift, emit, assign_config.
  cbn [effects config_var app fst snd].
  destruct (load_config lib (fs w) (config args)) as [cfg|e] eqn:Hcfg.
  2:{ left. pose proof (catchable_load_config lib (fs w) (config args)) as Hc.
      rewrite Hcfg in Hc. cbn in Hc. rewrite Hc. do 2 eexists.
      split; [reflexivity | split; [reflexivity | now left]]. }
  destruct (py_getitem cfg "seed") as [seed|e] eqn:Hseed.
  2:{ left. pose proof (catchable_py_getitem cfg "seed") as Hc.
      rewrite Hseed in Hc. cbn in Hc. rewrite Hc. do 2 eexists.
      split; [reflexivity | split; [reflexivity | now left]]. }
  destruct (py_getitem cfg "window") as [window|e] eqn:Hwin.
  2:{ left. pose proof (catchable_py_getitem cfg "window") as Hc.
      rewrite Hwin in Hc. cbn in Hc. rewrite Hc. do 2 eexists.
      split; [reflexivity | split; [reflexivity | now left]]. }
  destruct (py_getitem cfg "version") as [version|e] eqn:Hver.
  2:{ left. pose proof (catchable_py_getitem cfg "version") as Hc.
      rewrite Hver in Hc. cbn in Hc. rewrite Hc. do 2 eexists.
      split; [reflexivity | split; [reflexivity | now left]]. }
  destruct (seed_generator lib seed) as [[]|e] eqn:Hgen.
  2:{ left. pose proof (catchable_seed_generator lib seed) as Hc.
      rewrite Hgen in Hc. cbn in Hc. rewrite Hc. do 2 eexists.
      split; [reflexivity | split; [reflexivity | now left]]. }
  destruct (load_data lib (fs w) (input args)) as [df|e] eqn:Hdata.
  2:{ left. pose proof (catchable_load_data lib (fs w) (input args)) as Hc.
      rewrite Hdata in Hc. cbn in Hc. rewrite Hc. do 2 eexists.
      split; [reflexivity | split; [reflexivity | now left]]. }
  cbn [effects config_var app].
  fold (loaded_state cfg seed window version (index_len df)).
  destruct (compute_signal_effects df window
              (loaded_state cfg seed window version (index_len df)))
    as (extra & Heff & Hlines & Hwrites).
  destruct (compute_signal_frame df window
              (loaded_state cfg seed window version (index_len df))) as (_ & _ & Hcatch & _).
  destruct (compute_signal df window (loaded_state cfg seed window version (index_len df)))
    as [[[table rate]|e] st] eqn:Hsig; cbn [fst snd] in Heff, Hcatch.
  2:{ left. cbn in Hcatch. rewrite Hcatch. exists e, st.
      split; [reflexivity|]. rewrite Heff, error_lines_app, writes_to_app, Hlines, Hwrites.
      split; [reflexivity | now left]. }
  cbn [snd]. rewrite emit_success_run.
  destruct (writable w (output args)) eqn:Hwr.
  2:{ left. cbn [is_Exception]. exists (OSError "cannot open the output file"), st.
      split; [reflexivity|]. rewrite Heff, error_lines_app, writes_to_app, Hlines, Hwrites.
      split; [reflexivity | now left]. }
  destruct (json_serializable version && json_serializable seed) eqn:Hjs.
  - right. do 2 eexists. split; [reflexivity|]. cbn [effects].
    rewrite Heff, !error_lines_app, !writes_to_app, Hlines, Hwrites. cbn.
    rewrite String.eqb_refl. split; [reflexivity | split; [reflexivity|]].
    unfold success_doc. eauto.
  - left. cbn [is_Exception]. do 2 eexists. split; [reflexivity|]. cbn [effects].
    rewrite Heff, !error_lines_app, !writes_to_app, Hlines, Hwrites. cbn.
    rewrite String.eqb_refl. split; [reflexivity|]. right.
    exists cfg, version, seed, (index_len df), rate.
    split; [reflexivity | split; [|split; [exact Hver | reflexivity]]].
    destruct (compute_signal_frame df window
                (loaded_state cfg seed window version (index_len df))) as (Hvar & _).
    rewrite Hsig in Hvar. exact Hvar.
Qed.

(** X4.  The output path sees one of four histories.  A run that exits with
    code 0 wrote the success report, whole, and nothing else.  Any other run
    exits with code 1 and wrote nothing, or an error report (whole or cut
    short), or the start of a success report followed by an error report. *)
Theorem report_lifecycle (args : arguments) (w : world) :
  (run_exit_code (main lib args w) = 0
   /\ exists r, writes_to (output args) (run_effects (main lib args w))
                = [(OnSuccess r, true)])
  \/ (run_exit_code (main lib args w) = 1
      /\ (writes_to (output args) (run_effects (main lib args w)) = []
          \/ (exists r complete,
                writes_to (output args) (run_effects (main lib args w))
                = [(OnError r, complete)])
          \/ (exists s r complete,
                writes_to (output args) (run_effects (main lib args w))
                = [(OnSuccess s, false); (OnError r, complete)]))).
Proof.
  unfold run_exit_code, run_effects.
  destruct (main_fault_cases args w)
    as [(e & st & -> & _ & Hwrites) | (st & doc & -> & _ & Hwrites & r & ->)].
  2:{ left. split; [reflexivity | eauto]. }
  right. split; [apply handler_exit_code|].
  destruct Hwrites as [Hnone | (cfg & version & seed & rows & rate & Hpart & Hvar & Hver & Hwr)].
  - destruct (handler_effects args w e st) as (extra & -> & Hextra).
    rewrite writes_to_app, Hnone.
    destruct Hextra as [-> | [(version & ->) | (version & ->)]]; cbn;
      rewrite ?String.eqb_refl; unfold error_doc; eauto.
  - rewrite (handler_writes args w e st version) by (now rewrite Hvar).
    rewrite Hpart, Hwr. unfold success_doc, error_doc. cbn. eauto 7.
Qed.

(** X6.  The log and the output file tell the same story about faults.  A
    line is logged at level ERROR exactly when an error report has been
    written in full, and the line carries the message of that report. *)
Theorem error_log_matches_report (args : arguments) (w : world) :
  error_lines (run_effects (main lib args w))
  = map ErrorOccurred
      (error_messages (writes_to (output args) (run_effects (main lib args w)))).
Proof.
  unfold run_effects.
  destruct (main_fault_cases args w)
    as [(e & st & -> & Hlines & Hwrites) | (st & doc & -> & Hlines & Hwrites & r & ->)].
  2:{ cbn [snd]. now rewrite Hlines, Hwrites. }
  destruct (handler_effects args w e st) as (extra & -> & Hextra).
  rewrite error_lines_app, writes_to_app, error_messages_app, map_app, Hlines.
  assert (Hbody : error_messages (writes_to (output args) (effects st)) = []).
  { destruct Hwrites as [-> | (cfg & version & seed & rows & rate & -> & _)]; reflexivity. }
  rewrite Hbody.
  destruct Hextra as [-> | [(version & ->) | (version & ->)]]; cbn;
    rewrite ?String.eqb_refl; reflexivity.
Qed.

(** X7.  The effects of a run that exits with code 0 are these ten, in this
    order: the preview is printed and the report is written after the steps
    before them are logged, and the report is written before the metric and
    the completion are logged and the same report is printed.  The report
    carries the version and the seed of the configuration, the number of
    rows of the table and the elapsed time. *)
Theorem success_trace (args : arguments) (w : world) :
  run_exit_code (main lib args w) = 0 ->
  exists cfg seed window version df close_head mean_head rate r,
    configured lib args w cfg seed window version
    /\ load_data lib (fs w) (input args) = Return df
    /\ s_version r = version /\ s_seed r = seed
    /\ s_rows_processed r = index_len df
    /\ s_metric r = "signal_rate" /\ s_status r = "success"
    /\ s_latency_ms r = elapsed_ms w
    /\ run_effects (main lib args w)
       = [Log INFO JobStarted;
          Log INFO (ConfigLoaded seed window version);
          Log INFO (DataLoaded (index_len df));
          PrintPreview close_head mean_head;
          Log INFO (RollingMeanCalculated window);
          Log INFO SignalsGenerated;
          WriteFile (output args) (OnSuccess r) true;
          Log INFO (Metrics rate (index_len df));
          Log INFO (JobCompleted (elapsed_ms w));
          PrintReport (OnSuccess r)].
Proof.
  intros Hexit.
  destruct (main_cases lib args w) as [(e & st & Hfail) | Hok].
  { unfold run_exit_code in Hexit. rewrite Hfail, handler_exit_code in Hexit.
    discriminate. }
  destruct Hok as (cfg & seed & window & version & df & table & rate0 & st & Hcfg & Hseed
                   & Hwin & Hver & Hgen & Hdata & Hsig & Hwr & Hjs & Hmain).
  destruct (compute_signal_frame df window
              (loaded_state cfg seed window version (index_len df))) as (_ & _ & _ & Hval).
  rewrite Hsig in Hval. cbn [fst] in Hval.
  destruct (signal_block_inv df table window rate0 (eq_sym Hval))
    as (s & close & win & -> & Hw0 & Hfind & Hnum & _ & _).
  rewrite (compute_signal_numeric df s close win _ Hfind Hnum Hw0) in Hsig.
  injection Hsig as _ _ <-.
  exists cfg, seed, (PyInt win), version, df, (head 10 s),
    (head 10 (Float64 (roll_mean close win win))), rate0,
    (mkSuccess version (index_len df) "signal_rate" (round4 (py_float rate0))
       (elapsed_ms w) seed "success").
  split; [repeat split; assumption|].
  split; [assumption|].
  repeat (split; [reflexivity|]).
  unfold run_effects. rewrite Hmain. reflexivity.
Qed.

(** X8.  When [numpy.random.seed] refuses the seed of a loaded configuration,
    the run ends like any other fault after the configuration: exit code 1
    and an error report with the version of the configuration and the text of
    the fault. *)
Theorem seed_fault_report (args : arguments) (w : world)
    (cfg seed window version : pyval) (e : exn) :
  load_config lib (fs w) (config args) = Return cfg ->
  py_getitem cfg "seed" = Return seed ->
  py_getitem cfg "window" = Return window ->
  py_getitem cfg "version" = Return version ->
  seed_generator lib seed = Raise e ->
  run_exit_code (main lib args w) = 1
  /\ writes_to (output args) (run_effects (main lib args w))
     = if writable w (output args)
       then [(OnError (mkError version "error" (str_exn e)), json_serializable version)]
       else [].
Proof.
  intros Hcfg Hseed Hwin Hver Hgen. unfold run_exit_code, run_effects.
  rewrite (main_seed_fault lib args w cfg seed window version e Hcfg Hseed Hwin Hver Hgen).
  split; [apply handler_exit_code|].
  rewrite (handler_writes args w e _ version) by exact Hver.
  cbn. now destruct (writable w (output args)).
Qed.

(** X9.  A window that is not an integer, or is a negative one, is refused
    by the rolling object and reported: booleans, floats, strings and an
    empty value all end in the same error report, whatever the table holds. *)
Theorem window_must_be_integer (args : arguments) (w : world)
    (cfg seed window version : pyval) (df : DataFrame) :
  configured lib args w cfg seed window version ->
  load_data lib (fs w) (input args) = Return df ->
  (forall z, window = PyInt z -> z < 0) ->
  run_exit_code (main lib args w) = 1
  /\ writes_to (output args) (run_effects (main lib args w))
     = if writable w (output args)
       then [(OnError (mkError version "error" "window must be an integer 0 or greater"),
              json_serializable version)]
       else [].
Proof.
  intros Hconf Hdata Hbad.
  assert (Hsig : signal_rate_of df window
                 = Raise (ValueError "window must be an integer 0 or greater")).
  { rewrite signal_rate_of_close.
    destruct (load_data_inv lib _ _ _ Hdata) as (_ & _ & _ & _ & Hcol).
    destruct (has_column_find "close" df Hcol) as [c ->].
    unfold rolling. destruct window; try reflexivity.
    specialize (Hbad z eq_refl). apply Z.ltb_lt in Hbad. now rewrite Hbad. }
  destruct (main_signal_fault lib args w cfg seed window version df _ Hconf Hdata Hsig)
    as (st & Hmain & Hvar & Hnone).
  assert (Hver : py_getitem cfg "version" = Return version) by apply Hconf.
  unfold run_exit_code, run_effects. rewrite Hmain.
  split; [apply handler_exit_code|].
  rewrite (handler_writes args w _ st version) by (now rewrite Hvar).
  now rewrite Hnone.
Qed.


(** X11.  Whenever the loader returns a document that is not a mapping, the
    first subscript raises a [TypeError], the subscript in the handler raises
    it again, and the run ends on it without writing to the output path. *)
Theorem non_mapping_config_no_report (args : arguments) (w : world) (cfg : pyval) :
  load_config lib (fs w) (config args) = Return cfg ->
  (forall pairs, cfg <> PyDict pairs) ->
  (exists msg, fst (main lib args w) = Raise (TypeError msg))
  /\ run_exit_code (main lib args w) = 1
  /\ run_effects (main lib args w) = [Log INFO JobStarted].
Proof.
  intros Hcfg Hnot.
  assert (Hsub : exists msg, forall key, py_getitem cfg key = Raise (TypeError msg)).
  { destruct cfg; cbn; eauto. exfalso. now apply (Hnot pairs). }
  destruct Hsub as [msg Hsub].
  unfold run_exit_code, run_effects.
  rewrite (main_subscript_fault lib args w cfg _ Hcfg (Hsub "seed")).
  unfold handler, bind, locals_config, lift. cbn. rewrite (Hsub "version"). cbn.
  split; [eauto | split; reflexivity].
Qed.

End RunProperties.

(** ** Rounding and timing *)

Lemma round_half_even_integer (q : Q) (z : Z) :
  (q == inject_Z z)%Q -> round_half_even q = z.
Proof.
  intros Hq. unfold round_half_even.
  assert (Hfloor : Qfloor q = z) by (rewrite Hq; apply Qfloor_Z).
  rewrite Hfloor.
  destruct (q - inject_Z z ?= 1 # 2)%Q eqn:Hcmp.
  - apply Qeq_alt in Hcmp. lra.
  - reflexivity.
  - apply Qgt_alt in Hcmp. lra.
Qed.

(** X19.  Rounding to four decimals leaves a value of at most four decimals as
    it is; in particular the value of a report rounds to itself. *)
Theorem round4_exact (q : Q) (z : Z) :
  (q * 10000 == inject_Z z)%Q ->
  float_eq (round4 (Some q)) (Some q)
  /\ float_eq (round4 (round4 (Some q))) (round4 (Some q)).
Proof.
  intros Hq. cbn [round4]. rewrite (round_half_even_integer _ z Hq).
  assert (Hback : (inject_Z z / 10000 == q)%Q) by (rewrite <- Hq; field).
  split; cbn [float_eq]; [exact Hback|].
  rewrite (round_half_even_integer (inject_Z z / 10000 * 10000) z) by field.
  reflexivity.
Qed.

Lemma round4_exact_witness :
  float_eq (round4 (Some (3 # 10))) (Some (3 # 10))
  /\ float_eq (round4 (round4 (Some (3 # 10)))) (round4 (Some (3 # 10))).
Proof.
  apply (round4_exact (3 # 10) 3000). reflexivity.
Defined.

(** X20.  The latency is the elapsed time in milliseconds, cut towards zero.
    With a clock that did not go back it is not negative and less than a
    millisecond short; with a clock that went back it is not positive. *)
Theorem latency_bounds (w : world) :
  ((t_start w <= t_end w)%Q ->
     0 <= elapsed_ms w
     /\ (inject_Z (elapsed_ms w) <= (t_end w - t_start w) * 1000)%Q
     /\ ((t_end w - t_start w) * 1000 < inject_Z (elapsed_ms w) + 1)%Q)
  /\ ((t_end w < t_start w)%Q -> elapsed_ms w <= 0).
Proof.
  unfold elapsed_ms, int_of_Q. set (d := ((t_end w - t_start w) * 1000)%Q).
  split; intros Hclock.
  - assert (Hd : (0 <= d)%Q) by (subst d; lra).
    apply Qle_bool_iff in Hd. rewrite Hd. apply Qle_bool_iff in Hd.
    pose proof (Qfloor_le d) as Hlo. pose proof (Qlt_floor d) as Hhi.
    rewrite inject_Z_plus in Hhi. change (inject_Z 1) with 1%Q in Hhi.
    split; [|split; assumption].
    change 0 with (Qfloor (inject_Z 0)). now apply Qfloor_resp_le.
  - assert (Hd : (d < 0)%Q) by (subst d; lra).
    destruct (Qle_bool 0 d) eqn:Hle.
    + apply Qle_bool_iff in Hle. lra.
    + change 0 with (Qceiling (inject_Z 0)). apply Qceiling_resp_le.
      change (inject_Z 0) with 0%Q. lra.
Qed.

Lemma latency_bounds_witness :
  0 <= elapsed_ms bench_world
  /\ (inject_Z (elapsed_ms bench_world)
      <= (t_end bench_world - t_start bench_world) * 1000)%Q
  /\ ((t_end bench_world - t_start bench_world) * 1000
      < inject_Z (elapsed_ms bench_world) + 1)%Q.
Proof.
  apply (proj1 (latency_bounds bench_world)). cbn. lra.
Defined.

(** ** The further properties on the test bench *)

Lemma window_one_never_signals_witness :
  exists rate, mean_int (signal_of [3; 7]%float 1) = Some rate /\ (rate == 0)%Q.
Proof.
  apply (proj2 (window_one_never_signals [3; 7]%float)). discriminate.
Defined.

Lemma success_trace_witness :
  exists cfg seed window version df close_head mean_head rate r,
    configured (bench_lib (Parsed (bench_config (PyInt 2) (PyStr "v1"))) (Parsed bench_table))
      bench_args bench_world cfg seed window version
    /\ load_data (bench_lib (Parsed (bench_config (PyInt 2) (PyStr "v1")))
                    (Parsed bench_table)) bench_files "data.csv" = Return df
    /\ s_version r = version /\ s_seed r = seed
    /\ s_rows_processed r = index_len df
    /\ s_metric r = "signal_rate" /\ s_status r = "success"
    /\ s_latency_ms r = elapsed_ms bench_world
    /\ run_effects (main (bench_lib (Parsed (bench_config (PyInt 2) (PyStr "v1")))
                            (Parsed bench_table)) bench_args bench_world)
       = [Log INFO JobStarted;
          Log INFO (ConfigLoaded seed window version);
          Log INFO (DataLoaded (index_len df));
          PrintPreview close_head mean_head;
          Log INFO (RollingMeanCalculated window);
          Log INFO SignalsGenerated;
          WriteFile "metrics.json" (OnSuccess r) true;
          Log INFO (Metrics rate (index_len df));
          Log INFO (JobCompleted (elapsed_ms bench_world));
          PrintReport (OnSuccess r)].
Proof.
  apply (success_trace
           (bench_lib (Parsed (bench_config (PyInt 2) (PyStr "v1"))) (Parsed bench_table))
           bench_args bench_world).
  reflexivity.
Defined.

Lemma seed_fault_report_witness :
  run_exit_code
    (main (bench_lib (Parsed (PyDict [("seed", PyInt (-1)); ("window", PyInt 2);
                                      ("version", PyStr "v1")]))
             (Parsed bench_table)) bench_args bench_world) = 1
  /\ writes_to "metrics.json"
       (run_effects
          (main (bench_lib (Parsed (PyDict [("seed", PyInt (-1)); ("window", PyInt 2);
                                            ("version", PyStr "v1")]))
                   (Parsed bench_table)) bench_args bench_world))
     = [(OnError (mkError (PyStr "v1") "error" "Seed must be between 0 and 2**32 - 1"),
         true)].
Proof.
  apply (seed_fault_report
           (bench_lib (Parsed (PyDict [("seed", PyInt (-1)); ("window", PyInt 2);
                                       ("version", PyStr "v1")]))
              (Parsed bench_table)) bench_args bench_world
           (PyDict [("seed", PyInt (-1)); ("window", PyInt 2); ("version", PyStr "v1")])
           (PyInt (-1)) (PyInt 2) (PyStr "v1")
           (ValueError "Seed must be between 0 and 2**32 - 1")
           eq_refl eq_refl eq_refl eq_refl eq_refl).
Defined.

Lemma window_must_be_integer_witness :
  run_exit_code
    (main (bench_lib (Parsed (bench_config (PyFloat 2.5%float) (PyStr "v1")))
             (Parsed bench_table)) bench_args bench_world) = 1
  /\ writes_to "metrics.json"
       (run_effects
          (main (bench_lib (Parsed (bench_config (PyFloat 2.5%float) (PyStr "v1")))
                   (Parsed bench_table)) bench_args bench_world))
     = [(OnError (mkError (PyStr "v1") "error" "window must be an integer 0 or greater"),
         true)].
Proof.
  apply (window_must_be_integer
           (bench_lib (Parsed (bench_config (PyFloat 2.5%float) (PyStr "v1")))
              (Parsed bench_table)) bench_args bench_world
           (bench_config (PyFloat 2.5%float) (PyStr "v1")) (PyInt 42)
           (PyFloat 2.5%float) (PyStr "v1") bench_table
           (bench_configured _ _ _) eq_refl).
  intros z Hz. discriminate Hz.
Defined.


Lemma non_mapping_config_no_report_witness :
  (exists msg,
     fst (main (bench_lib (Parsed (PyStr "seed window version")) (Parsed bench_table))
            bench_args bench_world) = Raise (TypeError msg))
  /\ run_exit_code
       (main (bench_lib (Parsed (PyStr "seed window version")) (Parsed bench_table))
          bench_args bench_world) = 1
  /\ run_effects
       (main (bench_lib (Parsed (PyStr "seed window version")) (Parsed bench_table))
          bench_args bench_world) = [Log INFO JobStarted].
Proof.
  apply (non_mapping_config_no_report
           (bench_lib (Parsed (PyStr "seed window version")) (Parsed bench_table))
           bench_args bench_world (PyStr "seed window version") eq_refl).
  intros pairs H. discriminate H.
Defined.

